(** * Findings-to-report pipeline of [app.py]

    A shallow embedding of [extract_compliance_details] and [generate_pdf]
    (src/app.py, lines 107-209), of the request handlers around them and of
    the job trigger, together with the Python operations they rely on,
    followed by their properties.  The interpreter is taken without
    resource limits: memory and recursion depth are not modelled. *)

From Stdlib Require Import String Ascii List ZArith Lia Bool.
From Stdlib Require Import DecimalString.
Import ListNotations.
Local Open Scope string_scope.
Local Open Scope Z_scope.
Set Warnings "-register-all".

(** ** Python values

    [json.loads] yields [None], [bool], [int], [float], [str], [list] and
    [dict] with [str] keys; the report built by the extractor is made of the
    same kinds of values.  A [str] is carried as its UTF-8 bytes, a lone
    surrogate (which [json.loads] accepts) in its three-byte form.  A
    [float] is never computed with by this code, only carried and printed,
    so it is kept as its [repr] text.  A [dict] keeps insertion order, which
    [generate_pdf] depends on, hence the association list. *)

Inductive value : Type :=
| VNone  : value
| VBool  : bool -> value
| VInt   : Z -> value
| VFloat : string -> value
| VStr   : string -> value
| VList  : list value -> value
| VDict  : list (string * value) -> value.

(** The exceptions the modelled code can raise. [IndexError] on the empty
    findings list is what the specification calls [EmptyRecord]. *)
Inductive exn : Type :=
| IndexError
| KeyError
| TypeError
| AttributeError
| UnicodeEncodeError.

Inductive result (A : Type) : Type :=
| Ok    : A -> result A
| Raise : exn -> result A.
Arguments Ok {A} _.
Arguments Raise {A} _.

Definition bind {A B : Type} (c : result A) (k : A -> result B) : result B :=
  match c with
  | Ok a => k a
  | Raise e => Raise e
  end.

Notation "x <- c ;; k" := (bind c (fun x => k))
  (at level 61, c at next level, right associativity).

(** The one table of the interpreter that the modelled code consults:
    [str.isprintable] of a code point from 128 on, which [repr] needs and
    which depends on the Unicode database the interpreter was built
    with. *)
Class Unicode : Type := { isprintable : Z -> bool }.

(** ** Python builtins used by the pipeline *)

Module Py.

(** [d.get(key, default)] on an association list: first binding wins. *)
Fixpoint assoc (key : string) (kvs : list (string * value)) : option value :=
  match kvs with
  | [] => None
  | (k, v) :: rest => if String.eqb k key then Some v else assoc key rest
  end.

(** [obj.get(key, default)]: only a [dict] has the method. *)
Definition get (obj : value) (key : string) (default : value) : result value :=
  match obj with
  | VDict kvs =>
      match assoc key kvs with
      | Some v => Ok v
      | None => Ok default
      end
  | _ => Raise AttributeError
  end.

(** A continuation byte of UTF-8 ([10xxxxxx]). *)
Definition is_cont (a : ascii) : bool :=
  let n := Z.of_nat (nat_of_ascii a) in (128 <=? n) && (n <? 192).

(** The characters of a [str]: each lead byte with its continuation
    bytes. *)
Fixpoint chars (s : string) : list string :=
  match s with
  | EmptyString => []
  | String a rest =>
      match rest with
      | String b _ =>
          if is_cont b then
            match chars rest with
            | h :: t => String a h :: t
            | [] => [String a EmptyString]
            end
          else String a EmptyString :: chars rest
      | EmptyString => [String a EmptyString]
      end
  end.

(** [obj[0]]. A [dict] from JSON has [str] keys only, so the key [0] is
    never found. *)
Definition getitem0 (obj : value) : result value :=
  match obj with
  | VList (x :: _) => Ok x
  | VList [] => Raise IndexError
  | VStr s =>
      match chars s with
      | c :: _ => Ok (VStr c)
      | [] => Raise IndexError
      end
  | VDict _ => Raise KeyError
  | _ => Raise TypeError
  end.

(** [for x in obj]: the elements of a list, the characters of a string,
    the keys of a dict. *)
Definition iter (obj : value) : result (list value) :=
  match obj with
  | VList l => Ok l
  | VStr s => Ok (map VStr (chars s))
  | VDict kvs => Ok (map (fun kv => VStr (fst kv)) kvs)
  | _ => Raise TypeError
  end.

(** [len(obj)]. *)
Definition len (obj : value) : result Z :=
  match obj with
  | VList l => Ok (Z.of_nat (length l))
  | VStr s => Ok (Z.of_nat (length (chars s)))
  | VDict kvs => Ok (Z.of_nat (length kvs))
  | _ => Raise TypeError
  end.

(** [str.lower] on the ASCII range. Bytes of other code points are left
    as they are: no code point outside ASCII lowercases to a letter of
    [high] or [medium], so the tests of lines 123 and 125 are decided as
    Python decides them. *)
Definition lower_ascii (a : ascii) : ascii :=
  let n := nat_of_ascii a in
  if (Nat.leb 65 n && Nat.leb n 90)%bool then ascii_of_nat (n + 32) else a.

Fixpoint lower_str (s : string) : string :=
  match s with
  | EmptyString => EmptyString
  | String a rest => String (lower_ascii a) (lower_str rest)
  end.

(** [obj.lower()]: only a [str] has the method. *)
Definition lower (obj : value) : result string :=
  match obj with
  | VStr s => Ok (lower_str s)
  | _ => Raise AttributeError
  end.

(** [x == "literal"]: a value of another type is never equal to a
    string. *)
Definition eq_str (x : value) (lit : string) : bool :=
  match x with
  | VStr s => String.eqb s lit
  | _ => false
  end.

(** [x in [lit1, lit2, ...]]. *)
Definition in_strs (x : value) (lits : list string) : bool :=
  existsb (eq_str x) lits.

(** *** [repr] and [str] *)

Fixpoint contains (c : ascii) (s : string) : bool :=
  match s with
  | EmptyString => false
  | String a rest => Ascii.eqb a c || contains c rest
  end.

Definition hex_digit (n : nat) : ascii :=
  nth n (list_ascii_of_string "0123456789abcdef") "0"%char.

Definition squote : ascii := "'"%char.
Definition dquote : ascii := ascii_of_nat 34.
Definition backslash : ascii := ascii_of_nat 92.

Definition str_of_Z (z : Z) : string := NilZero.string_of_int (Z.to_int z).

Fixpoint join (sep : string) (l : list string) : string :=
  match l with
  | [] => EmptyString
  | [x] => x
  | x :: rest => x ++ sep ++ join sep rest
  end.

Definition byte (a : ascii) : Z := Z.of_nat (nat_of_ascii a).

(** The text contains a lone surrogate: the byte 237 followed by a byte
    from 160 on starts the three-byte form of U+D800 to U+DFFF. *)
Fixpoint has_surrogate (s : string) : bool :=
  match s with
  | EmptyString => false
  | String a rest =>
      ((byte a =? 237)
       && match rest with
          | String b _ => 160 <=? byte b
          | EmptyString => false
          end)
      || has_surrogate rest
  end.

(** [print(text)] on a standard output that encodes as UTF-8 and is
    strict, the default: encoding fails exactly on a lone surrogate.  What
    is written is not part of the model. *)
Definition print (text : string) : result unit :=
  if has_surrogate text then Raise UnicodeEncodeError else Ok tt.

(** One ASCII character of the body of [repr(s)] for the chosen quote. *)
Definition repr_ascii (quote : ascii) (a : ascii) : string :=
  let n := nat_of_ascii a in
  if Ascii.eqb a quote || Ascii.eqb a backslash then
    String backslash (String a EmptyString)
  else if Nat.eqb n 9 then String backslash "t"
  else if Nat.eqb n 10 then String backslash "n"
  else if Nat.eqb n 13 then String backslash "r"
  else if Nat.ltb n 32 || Nat.eqb n 127 then
    String backslash
      (String "x" (String (hex_digit (Nat.div n 16))
                     (String (hex_digit (Nat.modulo n 16)) EmptyString)))
  else String a EmptyString.

(** The payload bits of the continuation bytes, appended to [acc]. *)
Fixpoint continuation (acc : Z) (rest : string) : Z :=
  match rest with
  | EmptyString => acc
  | String b rest' => continuation (acc * 64 + Z.land (byte b) 63) rest'
  end.

(** The code point of one character, from its UTF-8 bytes. *)
Definition code_point (ch : string) : Z :=
  match ch with
  | EmptyString => 0
  | String a rest =>
      let b0 := byte a in
      if b0 <? 128 then b0
      else if b0 <? 224 then continuation (Z.land b0 31) rest
      else if b0 <? 240 then continuation (Z.land b0 15) rest
      else continuation (Z.land b0 7) rest
  end.

(** The last [n] hexadecimal digits of [z], in lower case. *)
Fixpoint hex (n : nat) (z : Z) : string :=
  match n with
  | O => EmptyString
  | S k => hex k (z / 16) ++ String (hex_digit (Z.to_nat (z mod 16))) EmptyString
  end.

(** The escape of a code point that is not printable. *)
Definition escape (cp : Z) : string :=
  if cp <=? 255 then String backslash (String "x" (hex 2 cp))
  else if cp <=? 65535 then String backslash (String "u" (hex 4 cp))
  else String backslash (String "U" (hex 8 cp)).

Fixpoint concat_str (parts : list string) : string :=
  match parts with
  | [] => EmptyString
  | part :: rest => part ++ concat_str rest
  end.

Section Text.
Context {U : Unicode}.

(** One character of the body of [repr(s)] for the chosen quote: an
    ASCII character by the rules above; any other is copied when it is
    printable and escaped when it is not. *)
Definition repr_char (quote : ascii) (ch : string) : string :=
  match ch with
  | EmptyString => EmptyString
  | String a rest =>
      if byte a <? 128 then repr_ascii quote a ++ rest
      else if isprintable (code_point ch) then ch
      else escape (code_point ch)
  end.

Definition repr_body (quote : ascii) (s : string) : string :=
  concat_str (map (repr_char quote) (chars s)).

(** [repr(s)] of a [str]: single quotes, unless the string has a single
    quote and no double quote. *)
Definition repr_str (s : string) : string :=
  let quote :=
    if contains squote s && negb (contains dquote s) then dquote else squote in
  String quote (repr_body quote s ++ String quote EmptyString).

Fixpoint repr (v : value) : string :=
  match v with
  | VNone => "None"
  | VBool true => "True"
  | VBool false => "False"
  | VInt z => str_of_Z z
  | VFloat text => text
  | VStr s => repr_str s
  | VList l => "[" ++ join ", " (map repr l) ++ "]"
  | VDict kvs =>
      "{" ++ join ", "
               (map (fun kv => match kv with
                               | (k, x) => repr_str k ++ ": " ++ repr x
                               end) kvs) ++ "}"
  end.

(** [str(v)], which is what an f-string field applies. *)
Definition str (v : value) : string :=
  match v with
  | VStr s => s
  | _ => repr v
  end.

End Text.

End Py.

(** The ranges of code points from 128 on that are not printable in the
    Unicode database 14.0, the one of CPython 3.11: the categories Cc, Cf,
    Cs, Co, Cn, Zl, Zp and Zs. *)
Definition unprintable_ranges : list (Z * Z) :=
  [(128, 160); (173, 173); (888, 889); (896, 899); (907, 907); (909, 909);
   (930, 930); (1328, 1328); (1367, 1368); (1419, 1420); (1424, 1424);
   (1480, 1487); (1515, 1518); (1525, 1541); (1564, 1564); (1757, 1757);
   (1806, 1807); (1867, 1868); (1970, 1983); (2043, 2044); (2094, 2095);
   (2111, 2111); (2140, 2141); (2143, 2143); (2155, 2159); (2191, 2199);
   (2274, 2274); (2436, 2436); (2445, 2446); (2449, 2450); (2473, 2473);
   (2481, 2481); (2483, 2485); (2490, 2491); (2501, 2502); (2505, 2506);
   (2511, 2518); (2520, 2523); (2526, 2526); (2532, 2533); (2559, 2560);
   (2564, 2564); (2571, 2574); (2577, 2578); (2601, 2601); (2609, 2609);
   (2612, 2612); (2615, 2615); (2618, 2619); (2621, 2621); (2627, 2630);
   (2633, 2634); (2638, 2640); (2642, 2648); (2653, 2653); (2655, 2661);
   (2679, 2688); (2692, 2692); (2702, 2702); (2706, 2706); (2729, 2729);
   (2737, 2737); (2740, 2740); (2746, 2747); (2758, 2758); (2762, 2762);
   (2766, 2767); (2769, 2783); (2788, 2789); (2802, 2808); (2816, 2816);
   (2820, 2820); (2829, 2830); (2833, 2834); (2857, 2857); (2865, 2865);
   (2868, 2868); (2874, 2875); (2885, 2886); (2889, 2890); (2894, 2900);
   (2904, 2907); (2910, 2910); (2916, 2917); (2936, 2945); (2948, 2948);
   (2955, 2957); (2961, 2961); (2966, 2968); (2971, 2971); (2973, 2973);
   (2976, 2978); (2981, 2983); (2987, 2989); (3002, 3005); (3011, 3013);
   (3017, 3017); (3022, 3023); (3025, 3030); (3032, 3045); (3067, 3071);
   (3085, 3085); (3089, 3089); (3113, 3113); (3130, 3131); (3141, 3141);
   (3145, 3145); (3150, 3156); (3159, 3159); (3163, 3164); (3166, 3167);
   (3172, 3173); (3184, 3190); (3213, 3213); (3217, 3217); (3241, 3241);
   (3252, 3252); (3258, 3259); (3269, 3269); (3273, 3273); (3278, 3284);
   (3287, 3292); (3295, 3295); (3300, 3301); (3312, 3312); (3315, 3327);
   (3341, 3341); (3345, 3345); (3397, 3397); (3401, 3401); (3408, 3411);
   (3428, 3429); (3456, 3456); (3460, 3460); (3479, 3481); (3506, 3506);
   (3516, 3516); (3518, 3519); (3527, 3529); (3531, 3534); (3541, 3541);
   (3543, 3543); (3552, 3557); (3568, 3569); (3573, 3584); (3643, 3646);
   (3676, 3712); (3715, 3715); (3717, 3717); (3723, 3723); (3748, 3748);
   (3750, 3750); (3774, 3775); (3781, 3781); (3783, 3783); (3790, 3791);
   (3802, 3803); (3808, 3839); (3912, 3912); (3949, 3952); (3992, 3992);
   (4029, 4029); (4045, 4045); (4059, 4095); (4294, 4294); (4296, 4300);
   (4302, 4303); (4681, 4681); (4686, 4687); (4695, 4695); (4697, 4697);
   (4702, 4703); (4745, 4745); (4750, 4751); (4785, 4785); (4790, 4791);
   (4799, 4799); (4801, 4801); (4806, 4807); (4823, 4823); (4881, 4881);
   (4886, 4887); (4955, 4956); (4989, 4991); (5018, 5023); (5110, 5111);
   (5118, 5119); (5760, 5760); (5789, 5791); (5881, 5887); (5910, 5918);
   (5943, 5951); (5972, 5983); (5997, 5997); (6001, 6001); (6004, 6015);
   (6110, 6111); (6122, 6127); (6138, 6143); (6158, 6158); (6170, 6175);
   (6265, 6271); (6315, 6319); (6390, 6399); (6431, 6431); (6444, 6447);
   (6460, 6463); (6465, 6467); (6510, 6511); (6517, 6527); (6572, 6575);
   (6602, 6607); (6619, 6621); (6684, 6685); (6751, 6751); (6781, 6782);
   (6794, 6799); (6810, 6815); (6830, 6831); (6863, 6911); (6989, 6991);
   (7039, 7039); (7156, 7163); (7224, 7226); (7242, 7244); (7305, 7311);
   (7355, 7356); (7368, 7375); (7419, 7423); (7958, 7959); (7966, 7967);
   (8006, 8007); (8014, 8015); (8024, 8024); (8026, 8026); (8028, 8028);
   (8030, 8030); (8062, 8063); (8117, 8117); (8133, 8133); (8148, 8149);
   (8156, 8156); (8176, 8177); (8181, 8181); (8191, 8207); (8232, 8239);
   (8287, 8303); (8306, 8307); (8335, 8335); (8349, 8351); (8385, 8399);
   (8433, 8447); (8588, 8591); (9255, 9279); (9291, 9311); (11124, 11125);
   (11158, 11158); (11508, 11512); (11558, 11558); (11560, 11564);
   (11566, 11567); (11624, 11630); (11633, 11646); (11671, 11679);
   (11687, 11687); (11695, 11695); (11703, 11703); (11711, 11711);
   (11719, 11719); (11727, 11727); (11735, 11735); (11743, 11743);
   (11870, 11903); (11930, 11930); (12020, 12031); (12246, 12271);
   (12284, 12288); (12352, 12352); (12439, 12440); (12544, 12548);
   (12592, 12592); (12687, 12687); (12772, 12783); (12831, 12831);
   (42125, 42127); (42183, 42191); (42540, 42559); (42744, 42751);
   (42955, 42959); (42962, 42962); (42964, 42964); (42970, 42993);
   (43053, 43055); (43066, 43071); (43128, 43135); (43206, 43213);
   (43226, 43231); (43348, 43358); (43389, 43391); (43470, 43470);
   (43482, 43485); (43519, 43519); (43575, 43583); (43598, 43599);
   (43610, 43611); (43715, 43738); (43767, 43776); (43783, 43784);
   (43791, 43792); (43799, 43807); (43815, 43815); (43823, 43823);
   (43884, 43887); (44014, 44015); (44026, 44031); (55204, 55215);
   (55239, 55242); (55292, 63743); (64110, 64111); (64218, 64255);
   (64263, 64274); (64280, 64284); (64311, 64311); (64317, 64317);
   (64319, 64319); (64322, 64322); (64325, 64325); (64451, 64466);
   (64912, 64913); (64968, 64974); (64976, 65007); (65050, 65055);
   (65107, 65107); (65127, 65127); (65132, 65135); (65141, 65141);
   (65277, 65280); (65471, 65473); (65480, 65481); (65488, 65489);
   (65496, 65497); (65501, 65503); (65511, 65511); (65519, 65531);
   (65534, 65535); (65548, 65548); (65575, 65575); (65595, 65595);
   (65598, 65598); (65614, 65615); (65630, 65663); (65787, 65791);
   (65795, 65798); (65844, 65846); (65935, 65935); (65949, 65951);
   (65953, 65999); (66046, 66175); (66205, 66207); (66257, 66271);
   (66300, 66303); (66340, 66348); (66379, 66383); (66427, 66431);
   (66462, 66462); (66500, 66503); (66518, 66559); (66718, 66719);
   (66730, 66735); (66772, 66775); (66812, 66815); (66856, 66863);
   (66916, 66926); (66939, 66939); (66955, 66955); (66963, 66963);
   (66966, 66966); (66978, 66978); (66994, 66994); (67002, 67002);
   (67005, 67071); (67383, 67391); (67414, 67423); (67432, 67455);
   (67462, 67462); (67505, 67505); (67515, 67583); (67590, 67591);
   (67593, 67593); (67638, 67638); (67641, 67643); (67645, 67646);
   (67670, 67670); (67743, 67750); (67760, 67807); (67827, 67827);
   (67830, 67834); (67868, 67870); (67898, 67902); (67904, 67967);
   (68024, 68027); (68048, 68049); (68100, 68100); (68103, 68107);
   (68116, 68116); (68120, 68120); (68150, 68151); (68155, 68158);
   (68169, 68175); (68185, 68191); (68256, 68287); (68327, 68330);
   (68343, 68351); (68406, 68408); (68438, 68439); (68467, 68471);
   (68498, 68504); (68509, 68520); (68528, 68607); (68681, 68735);
   (68787, 68799); (68851, 68857); (68904, 68911); (68922, 69215);
   (69247, 69247); (69290, 69290); (69294, 69295); (69298, 69375);
   (69416, 69423); (69466, 69487); (69514, 69551); (69580, 69599);
   (69623, 69631); (69710, 69713); (69750, 69758); (69821, 69821);
   (69827, 69839); (69865, 69871); (69882, 69887); (69941, 69941);
   (69960, 69967); (70007, 70015); (70112, 70112); (70133, 70143);
   (70162, 70162); (70207, 70271); (70279, 70279); (70281, 70281);
   (70286, 70286); (70302, 70302); (70314, 70319); (70379, 70383);
   (70394, 70399); (70404, 70404); (70413, 70414); (70417, 70418);
   (70441, 70441); (70449, 70449); (70452, 70452); (70458, 70458);
   (70469, 70470); (70473, 70474); (70478, 70479); (70481, 70486);
   (70488, 70492); (70500, 70501); (70509, 70511); (70517, 70655);
   (70748, 70748); (70754, 70783); (70856, 70863); (70874, 71039);
   (71094, 71095); (71134, 71167); (71237, 71247); (71258, 71263);
   (71277, 71295); (71354, 71359); (71370, 71423); (71451, 71452);
   (71468, 71471); (71495, 71679); (71740, 71839); (71923, 71934);
   (71943, 71944); (71946, 71947); (71956, 71956); (71959, 71959);
   (71990, 71990); (71993, 71994); (72007, 72015); (72026, 72095);
   (72104, 72105); (72152, 72153); (72165, 72191); (72264, 72271);
   (72355, 72367); (72441, 72703); (72713, 72713); (72759, 72759);
   (72774, 72783); (72813, 72815); (72848, 72849); (72872, 72872);
   (72887, 72959); (72967, 72967); (72970, 72970); (73015, 73017);
   (73019, 73019); (73022, 73022); (73032, 73039); (73050, 73055);
   (73062, 73062); (73065, 73065); (73103, 73103); (73106, 73106);
   (73113, 73119); (73130, 73439); (73465, 73647); (73649, 73663);
   (73714, 73726); (74650, 74751); (74863, 74863); (74869, 74879);
   (75076, 77711); (77811, 77823); (78895, 82943); (83527, 92159);
   (92729, 92735); (92767, 92767); (92778, 92781); (92863, 92863);
   (92874, 92879); (92910, 92911); (92918, 92927); (92998, 93007);
   (93018, 93018); (93026, 93026); (93048, 93052); (93072, 93759);
   (93851, 93951); (94027, 94030); (94088, 94094); (94112, 94175);
   (94181, 94191); (94194, 94207); (100344, 100351); (101590, 101631);
   (101641, 110575); (110580, 110580); (110588, 110588); (110591, 110591);
   (110883, 110927); (110931, 110947); (110952, 110959); (111356, 113663);
   (113771, 113775); (113789, 113791); (113801, 113807); (113818, 113819);
   (113824, 118527); (118574, 118575); (118599, 118607); (118724, 118783);
   (119030, 119039); (119079, 119080); (119155, 119162); (119275, 119295);
   (119366, 119519); (119540, 119551); (119639, 119647); (119673, 119807);
   (119893, 119893); (119965, 119965); (119968, 119969); (119971, 119972);
   (119975, 119976); (119981, 119981); (119994, 119994); (119996, 119996);
   (120004, 120004); (120070, 120070); (120075, 120076); (120085, 120085);
   (120093, 120093); (120122, 120122); (120127, 120127); (120133, 120133);
   (120135, 120137); (120145, 120145); (120486, 120487); (120780, 120781);
   (121484, 121498); (121504, 121504); (121520, 122623); (122655, 122879);
   (122887, 122887); (122905, 122906); (122914, 122914); (122917, 122917);
   (122923, 123135); (123181, 123183); (123198, 123199); (123210, 123213);
   (123216, 123535); (123567, 123583); (123642, 123646); (123648, 124895);
   (124903, 124903); (124908, 124908); (124911, 124911); (124927, 124927);
   (125125, 125126); (125143, 125183); (125260, 125263); (125274, 125277);
   (125280, 126064); (126133, 126208); (126270, 126463); (126468, 126468);
   (126496, 126496); (126499, 126499); (126501, 126502); (126504, 126504);
   (126515, 126515); (126520, 126520); (126522, 126522); (126524, 126529);
   (126531, 126534); (126536, 126536); (126538, 126538); (126540, 126540);
   (126544, 126544); (126547, 126547); (126549, 126550); (126552, 126552);
   (126554, 126554); (126556, 126556); (126558, 126558); (126560, 126560);
   (126563, 126563); (126565, 126566); (126571, 126571); (126579, 126579);
   (126584, 126584); (126589, 126589); (126591, 126591); (126602, 126602);
   (126620, 126624); (126628, 126628); (126634, 126634); (126652, 126703);
   (126706, 126975); (127020, 127023); (127124, 127135); (127151, 127152);
   (127168, 127168); (127184, 127184); (127222, 127231); (127406, 127461);
   (127491, 127503); (127548, 127551); (127561, 127567); (127570, 127583);
   (127590, 127743); (128728, 128732); (128749, 128751); (128765, 128767);
   (128884, 128895); (128985, 128991); (129004, 129007); (129009, 129023);
   (129036, 129039); (129096, 129103); (129114, 129119); (129160, 129167);
   (129198, 129199); (129202, 129279); (129620, 129631); (129646, 129647);
   (129653, 129655); (129661, 129663); (129671, 129679); (129709, 129711);
   (129723, 129727); (129734, 129743); (129754, 129759); (129768, 129775);
   (129783, 129791); (129939, 129939); (129995, 130031); (130042, 131071);
   (173792, 173823); (177977, 177983); (178206, 178207); (183970, 183983);
   (191457, 194559); (195102, 196607); (201547, 917759); (918000, 1114111)].

(** The table of CPython 3.11, with which the examples are run. *)
Definition cpython_3_11 : Unicode :=
  {| isprintable := fun cp =>
       negb (existsb (fun range => (fst range <=? cp) && (cp <=? snd range))
               unprintable_ranges) |}.

(** ** The findings extractor ([extract_compliance_details], lines 107-183) *)

Section Pipeline.
Context {U : Unicode}.

(** The three keys of [risk_counts], which are also the values of [risk]. *)
Inductive risk : Type := High | Medium | Low.

Definition risk_name (r : risk) : string :=
  match r with
  | High => "High"
  | Medium => "Medium"
  | Low => "Low"
  end.

(** The dict [risk_counts]: its key set is fixed at line 120. *)
Record risk_counts : Type := mkCounts {
  count_high : Z;
  count_medium : Z;
  count_low : Z
}.

Definition zero_counts : risk_counts := mkCounts 0 0 0.

(** [risk_counts[r]]. *)
Definition count_of (rc : risk_counts) (r : risk) : Z :=
  match r with
  | High => count_high rc
  | Medium => count_medium rc
  | Low => count_low rc
  end.

(** [risk_counts[r] = n]. *)
Definition set_count (rc : risk_counts) (r : risk) (n : Z) : risk_counts :=
  match r with
  | High => mkCounts n (count_medium rc) (count_low rc)
  | Medium => mkCounts (count_high rc) n (count_low rc)
  | Low => mkCounts (count_high rc) (count_medium rc) n
  end.

(** Lines 120-128 once [severity.lower()] has been evaluated. *)
Definition seed_risk_counts (severity_lower : string) : risk_counts :=
  let risk_counts := zero_counts in
  if String.eqb severity_lower "high" then set_count risk_counts High 1
  else if String.eqb severity_lower "medium" then set_count risk_counts Medium 1
  else set_count risk_counts Low 1.

(** Lines 140-148: the risk assessment of one category. *)
Definition classify (category : value) : risk * string :=
  if Py.in_strs category ["FINANCIAL"; "PERSONAL_HEALTH"; "SSN"] then
    (High, "Immediately protect " ++ Py.str category ++ " information")
  else if Py.in_strs category ["EMAIL"; "PHONE"; "ADDRESS"] then
    (Medium, "Review and secure " ++ Py.str category ++ " data handling")
  else
    (Low, "Maintain current data protection measures").

(** The dict appended at lines 152-157. *)
Definition sensitivity (category : value) (r : risk) (action : string) : value :=
  VDict [("type", category);
         ("visibility", VStr "Partially Visible");
         ("risk", VStr (risk_name r));
         ("action", VStr action)].

(** The loop of lines 136-157 over the items still to visit, threading
    [risk_counts] and [sensitivities]. *)
Fixpoint categorize (items : list value) (rc : risk_counts) (sensitivities : list value)
  : result (risk_counts * list value) :=
  match items with
  | [] => Ok (rc, sensitivities)
  | data :: rest =>
      category <- Py.get data "category" (VStr "Unknown") ;;
      let '(r, action) := classify category in
      let rc := set_count rc r (count_of rc r + 1) in
      categorize rest rc (sensitivities ++ [sensitivity category r action])%list
  end.

(** The dict literal of lines 160-181, its values evaluated in the order
    they are written. *)
Definition compliance_dict (report severity : value) (rc : risk_counts)
    (sensitivities : list value) (sensitive_data : value) : result value :=
  category <- Py.get report "category" (VStr "Unknown") ;;
  count <- Py.get report "count" (VInt 0) ;;
  description <- Py.get report "description" (VStr "No description available") ;;
  updated <- Py.get report "updatedAt" (VStr "Unknown") ;;
  n_sensitive <- Py.len sensitive_data ;;
  Ok (VDict [
    ("Risk Level", severity);
    ("Category", category);
    ("Findings Count", count);
    ("Description", description);
    ("Last Updated", updated);
    ("High Risk", VInt (count_of rc High));
    ("Medium Risk", VInt (count_of rc Medium));
    ("Low Risk", VInt (count_of rc Low));
    ("Sensitivities", VList sensitivities);
    ("Data Protection", VInt (Z.min 100 (count_of rc High * 30 + 50)));
    ("Access Control", VInt (Z.min 100 (count_of rc Medium * 20 + 60)));
    ("Security Monitoring", VInt (Z.min 100 (count_of rc Low * 10 + 70)));
    ("Privacy", VInt (Z.min 100 (n_sensitive * 15 + 55)));
    ("Encryption", VInt (Z.min 100 (count_of rc High * 25 + 45)))
  ]).

(** Line 116. *)
Definition severity_of (report : value) : result value :=
  severity_obj <- Py.get report "severity" (VDict []) ;;
  Py.get severity_obj "description" (VStr "Unknown").

(** Line 132. *)
Definition sensitive_data_of (report : value) : result value :=
  details <- Py.get report "classificationDetails" (VDict []) ;;
  result_obj <- Py.get details "result" (VDict []) ;;
  Py.get result_obj "sensitiveData" (VList []).

(** [extract_compliance_details(json_data)].  The [print] of line 117
    writes the severity itself and fails when it cannot be encoded.  The
    other [print] calls write ASCII text only ([json.dumps] escapes every
    other character, the counts are integers) and cannot fail; the [get]
    of line 113 fails exactly when the first one of line 116 does. *)
Definition extract_compliance_details (json_data : value) : result value :=
  report <- Py.getitem0 json_data ;;
  severity <- severity_of report ;;
  printed <- Py.print ("Extracted Severity: " ++ Py.str severity) ;;
  severity_lower <- Py.lower severity ;;
  let risk_counts := seed_risk_counts severity_lower in
  sensitive_data <- sensitive_data_of report ;;
  items <- Py.iter sensitive_data ;;
  counted <- categorize items risk_counts [] ;;
  let '(risk_counts, sensitivities) := counted in
  compliance_dict report severity risk_counts sensitivities sensitive_data.

(** ** The renderer ([generate_pdf], lines 185-209)

    The canvas is modelled by the calls made on it, in order; turning them
    into PDF bytes is the work of the drawing library.  [ShowPage] is the
    call that ends a page and starts the next one. *)

Inductive canvas_op : Type :=
| SetFont (name : string) (size : Z)
| DrawString (x y : Z) (text : string)
| ShowPage
| Save.

(** ["-" * n]. *)
Fixpoint repeat_str (s : string) (n : nat) : string :=
  match n with
  | O => EmptyString
  | S k => s ++ repeat_str s k
  end.

(** The inner loop of lines 200-202. *)
Fixpoint draw_sensitivities (entries : list value) (canvas : list canvas_op) (y_position : Z)
  : list canvas_op * Z :=
  match entries with
  | [] => (canvas, y_position)
  | entry :: rest =>
      draw_sensitivities rest
        (canvas ++ [DrawString 120 y_position ("- " ++ Py.str entry)])%list
        (y_position - 20)
  end.

(** The loop of lines 195-205 over the items of [compliance_details]. *)
Fixpoint draw_items (items : list (string * value)) (canvas : list canvas_op) (y_position : Z)
  : result (list canvas_op * Z) :=
  match items with
  | [] => Ok (canvas, y_position)
  | (key, val) :: rest =>
      if String.eqb key "Sensitivities" then
        let canvas := (canvas ++ [DrawString 100 y_position (key ++ ":")])%list in
        let y_position := y_position - 20 in
        entries <- Py.iter val ;;
        let '(canvas, y_position) := draw_sensitivities entries canvas y_position in
        draw_items rest canvas y_position
      else
        let canvas := (canvas ++ [DrawString 100 y_position (key ++ ": " ++ Py.str val)])%list in
        draw_items rest canvas (y_position - 20)
  end.

(** Lines 187-205: the canvas and the cursor when the loop is left. *)
Definition render_fields (compliance_details : value) : result (list canvas_op * Z) :=
  let canvas := [SetFont "Helvetica" 12] in
  let canvas := (canvas ++ [DrawString 100 750 "Compliance Report"])%list in
  let canvas := (canvas ++ [DrawString 100 730 (repeat_str "-" 50)])%list in
  let y_position := 700 in
  match compliance_details with
  | VDict items => draw_items items canvas y_position
  | _ => Raise AttributeError
  end.

(** [generate_pdf(compliance_details)]. *)
Definition generate_pdf (compliance_details : value) : result (list canvas_op) :=
  drawn <- render_fields compliance_details ;;
  Ok (fst drawn ++ [Save])%list.

(** The whole of lines 60 and 68 of [result]. *)
Definition pipeline (json_data : value) : result (list canvas_op) :=
  compliance_details <- extract_compliance_details json_data ;;
  generate_pdf compliance_details.

(** ** Vocabulary of the statements *)

(** The sensitivity entry the loop builds for one category. *)
Definition entry_of (category : value) : value :=
  let '(r, action) := classify category in sensitivity category r action.

(** [risk_counts[r] += 1]. *)
Definition bump (rc : risk_counts) (r : risk) : risk_counts :=
  set_count rc r (count_of rc r + 1).

Definition risk_eqb (a b : risk) : bool :=
  match a, b with
  | High, High | Medium, Medium | Low, Low => true
  | _, _ => false
  end.

(** How many of the categories are assessed at tier [r]. *)
Definition tally (r : risk) (categories : list value) : Z :=
  Z.of_nat (length (filter (fun c => risk_eqb (fst (classify c)) r) categories)).

Definition total (rc : risk_counts) : Z :=
  count_high rc + count_medium rc + count_low rc.

(** The items the loop of line 136 visits for a report. *)
Definition sensitive_items (report : value) : result (list value) :=
  sensitive_data <- sensitive_data_of report ;;
  Py.iter sensitive_data.

(** [data.get("category", "Unknown")] for each item. *)
Definition category_of (data category : value) : Prop :=
  Py.get data "category" (VStr "Unknown") = Ok category.

(** A key of the report dict. *)
Definition field (key : string) (compliance_details : value) : option value :=
  match compliance_details with
  | VDict kvs => Py.assoc key kvs
  | _ => None
  end.

Definition is_dict (v : value) : bool :=
  match v with VDict _ => true | _ => false end.

Definition is_str (v : value) : bool :=
  match v with VStr _ => true | _ => false end.

(** A string that standard output can encode. *)
Definition is_encodable_str (v : value) : bool :=
  match v with VStr s => negb (Py.has_surrogate s) | _ => false end.

Definition is_list_of_dicts (v : value) : bool :=
  match v with VList items => forallb is_dict items | _ => false end.

(** [obj] is a dict in which [key] is missing or passes [check]. *)
Definition optional (obj : value) (key : string) (check : value -> bool) : bool :=
  match obj with
  | VDict kvs =>
      match Py.assoc key kvs with
      | None => true
      | Some v => check v
      end
  | _ => false
  end.

(** A scan-result object whose consumed containers have their documented
    type when they are present: [severity] an object with a string
    [description] that standard output can encode (it is printed);
    [classificationDetails.result.sensitiveData] a list of objects.  The
    types of [category], [count], [description] and [updatedAt] are left
    free. *)
Definition well_formed_report (report : value) : bool :=
  optional report "severity" (fun sev => optional sev "description" is_encodable_str)
  && optional report "classificationDetails" (fun details =>
       optional details "result" (fun res =>
         optional res "sensitiveData" is_list_of_dicts)).

(** Consecutive lines at margin [x], from height [y] downwards, one line
    height apart. *)
Fixpoint lines_at (x y : Z) (texts : list string) : list canvas_op :=
  match texts with
  | [] => []
  | t :: rest => DrawString x y t :: lines_at x (y - 20) rest
  end.

(** The report dict, key by key in the order of the literal of lines
    160-181. *)
Definition report_literal (risk_level category count description updated : value)
    (high medium low : Z) (sensitivities : list value)
    (protection access monitoring privacy encryption : Z) : value :=
  VDict [
    ("Risk Level", risk_level);
    ("Category", category);
    ("Findings Count", count);
    ("Description", description);
    ("Last Updated", updated);
    ("High Risk", VInt high);
    ("Medium Risk", VInt medium);
    ("Low Risk", VInt low);
    ("Sensitivities", VList sensitivities);
    ("Data Protection", VInt protection);
    ("Access Control", VInt access);
    ("Security Monitoring", VInt monitoring);
    ("Privacy", VInt privacy);
    ("Encryption", VInt encryption)
  ].

(** The value [obj.get(key, default)] yields on a dict. *)
Definition get_or (obj : value) (key : string) (default : value) : value :=
  match field key obj with
  | Some v => v
  | None => default
  end.

(** The text [str] gives for a sensitivity entry: a flat dump of its four
    keys and values. *)
Definition entry_dump (category : value) (r : risk) (action : string) : string :=
  "{'type': " ++ Py.repr category
  ++ ", 'visibility': 'Partially Visible', 'risk': '" ++ risk_name r
  ++ "', 'action': " ++ Py.repr_str action ++ "}".

(** The texts of the indented lines, one per sensitivity entry. *)
Definition entry_texts (sensitivities : list value) : list string :=
  map (fun e => "- " ++ Py.str e) sensitivities.

(** The lines of the fields before, and after, the sensitivities. *)
Definition head_texts (risk_level category count description updated : value)
    (high medium low : Z) : list string :=
  ["Risk Level: " ++ Py.str risk_level;
   "Category: " ++ Py.str category;
   "Findings Count: " ++ Py.str count;
   "Description: " ++ Py.str description;
   "Last Updated: " ++ Py.str updated;
   "High Risk: " ++ Py.str (VInt high);
   "Medium Risk: " ++ Py.str (VInt medium);
   "Low Risk: " ++ Py.str (VInt low);
   "Sensitivities:"].

Definition tail_texts (protection access monitoring privacy encryption : Z)
  : list string :=
  ["Data Protection: " ++ Py.str (VInt protection);
   "Access Control: " ++ Py.str (VInt access);
   "Security Monitoring: " ++ Py.str (VInt monitoring);
   "Privacy: " ++ Py.str (VInt privacy);
   "Encryption: " ++ Py.str (VInt encryption)].

Definition preamble : list canvas_op :=
  [SetFont "Helvetica" 12;
   DrawString 100 750 "Compliance Report";
   DrawString 100 730 "--------------------------------------------------"].

(** The line of a field other than the sensitivities. *)
Definition field_text (kv : string * value) : string :=
  fst kv ++ ": " ++ Py.str (snd kv).

Definition plain_key (kv : string * value) : bool :=
  negb (String.eqb (fst kv) "Sensitivities").

(** No [severity.description] to read. *)
Definition severity_missing (report : value) : Prop :=
  field "severity" report = None
  \/ exists sev, field "severity" report = Some sev
                 /\ field "description" sev = None.

(** No [classificationDetails.result.sensitiveData] to read. *)
Definition sensitive_data_missing (report : value) : Prop :=
  field "classificationDetails" report = None
  \/ exists details,
       field "classificationDetails" report = Some details
       /\ (field "result" details = None
           \/ exists res, field "result" details = Some res
                          /\ field "sensitiveData" res = None).

(** The sample record of the end-to-end example. *)
Definition sample_report : value :=
  VDict [("severity", VDict [("description", VStr "High")]);
         ("category", VStr "PII");
         ("count", VInt 5);
         ("classificationDetails",
          VDict [("result",
                  VDict [("sensitiveData",
                          VList [VDict [("category", VStr "SSN")];
                                 VDict [("category", VStr "EMAIL")]])])])].

(** A record with [n] sensitive-data items of category SSN. *)
Definition crowded_record (n : nat) : value :=
  VList [VDict [("classificationDetails",
                 VDict [("result",
                         VDict [("sensitiveData",
                                 VList (repeat (VDict [("category", VStr "SSN")]) n))])])]].

(** A record whose only sensitive-data item has no category. *)
Definition bare_item_report : value :=
  VDict [("classificationDetails",
          VDict [("result", VDict [("sensitiveData", VList [VDict []])])])].

(** ** Vocabulary of the further properties *)



(** How many entries of a Sensitivities list carry the risk [r]. *)
Definition entries_at (r : risk) (sensitivities : list value) : Z :=
  Z.of_nat (length (filter (fun e => Py.eq_str (get_or e "risk" VNone) (risk_name r))
                      sensitivities)).

(** [for x in v] can start. *)
Definition iterable (v : value) : bool :=
  match Py.iter v with
  | Ok _ => true
  | Raise _ => false
  end.

(** The items of a dict that [generate_pdf] can draw. *)
Definition drawable (kv : string * value) : bool :=
  plain_key kv || iterable (snd kv).

(** The drawn lines [ops] sit on consecutive rows from height [y0]
    downwards, each at the field margin or at the entry margin. *)
Definition rows_from (y0 : Z) (ops : list canvas_op) : Prop :=
  forall k op,
    nth_error ops k = Some op ->
    exists x t, op = DrawString x (y0 - 20 * Z.of_nat k) t /\ (x = 100 \/ x = 120).

End Pipeline.

(** ** More Python builtins, used by the request handlers *)

Module PyMore.

(** [bool(v)], the test of [not v]. *)
Definition truthy (v : value) : bool :=
  match v with
  | VNone => false
  | VBool b => b
  | VInt z => negb (z =? 0)
  | VFloat text => negb (String.eqb text "0.0" || String.eqb text "-0.0")
  | VStr s => negb (String.eqb s EmptyString)
  | VList l => match l with [] => false | _ :: _ => true end
  | VDict kvs => match kvs with [] => false | _ :: _ => true end
  end.

(** [obj[key]] for a string key: only a [dict] can be indexed by one. *)
Definition getitem (obj : value) (key : string) : result value :=
  match obj with
  | VDict kvs =>
      match Py.assoc key kvs with
      | Some v => Ok v
      | None => Raise KeyError
      end
  | _ => Raise TypeError
  end.

(** [s.split(sep)] for a separator of one character. *)
Fixpoint split_on (sep : ascii) (s : string) : list string :=
  match s with
  | EmptyString => [EmptyString]
  | String a rest =>
      if Ascii.eqb a sep then EmptyString :: split_on sep rest
      else match split_on sep rest with
           | h :: t => String a h :: t
           | [] => [String a EmptyString]
           end
  end.

(** [s.replace(old, new)] for a non-empty [old], left to right; [skip]
    counts the characters of a match still to pass over. *)
Fixpoint replace_from (skip : nat) (old new s : string) : string :=
  match s with
  | EmptyString => EmptyString
  | String a rest =>
      match skip with
      | S k => replace_from k old new rest
      | O =>
          if String.prefix old s
          then new ++ replace_from (String.length old - 1) old new rest
          else String a (replace_from 0 old new rest)
      end
  end.

Definition replace (old new s : string) : string := replace_from 0 old new s.

(** [s.rfind(c)] for one character: the last index, or -1. *)
Fixpoint rfind_from (c : ascii) (s : string) (i found : Z) : Z :=
  match s with
  | EmptyString => found
  | String a rest => rfind_from c rest (i + 1) (if Ascii.eqb a c then i else found)
  end.

Definition rfind (c : ascii) (s : string) : Z := rfind_from c s 0 (-1).

(** [p[i:j]] for indices that are not negative. *)
Definition slice (p : string) (i j : Z) : string :=
  String.substring (Z.to_nat i) (Z.to_nat (j - i)) p.

(** The [while] loop of [genericpath._splitext], which skips leading
    dots; [n] is the number of indices left before [dotIndex]. *)
Fixpoint skip_leading_dots (n : nat) (p : string) (filenameIndex dotIndex : Z)
  : string * string :=
  match n with
  | O => (p, EmptyString)
  | S k =>
      if negb (String.eqb (slice p filenameIndex (filenameIndex + 1)) ".")
      then (slice p 0 dotIndex, slice p dotIndex (Z.of_nat (String.length p)))
      else skip_leading_dots k p (filenameIndex + 1) dotIndex
  end.

(** [os.path.splitext(p)] of [posixpath]: separator [/], no alternative
    separator. *)
Definition splitext (p : string) : string * string :=
  let sepIndex := rfind "/"%char p in
  let dotIndex := rfind "."%char p in
  if dotIndex >? sepIndex then
    let filenameIndex := sepIndex + 1 in
    skip_leading_dots (Z.to_nat (dotIndex - filenameIndex)) p filenameIndex dotIndex
  else (p, EmptyString).

End PyMore.

(** ** The request handlers of [app.py] (lines 12-105) *)

Module Web.

Definition CSV_BUCKET : string := "hackathonwin".
Definition JSON_BUCKET : string := "macie-job-exports".
Definition JSON_PREFIX : string := "macie-findings/new.json".
Definition PDF_BUCKET : string := "hackathonwin".

(** What is handed to [upload_fileobj]: the uploaded file, or the buffer
    that [generate_pdf] returns. *)
Inductive payload : Type :=
| FileBody (content : string)
| PdfBody (canvas : list canvas_op).

(** One object written to a bucket. *)
Record upload : Type := mkUpload {
  up_body : payload;
  up_bucket : string;
  up_key : string
}.

(** The collaborators of the handlers: the S3 client [s3], [json.loads]
    (after [decode]), and flask's [render_template] and [url_for].  A call
    that raises yields [None]; [upload_fileobj] yields [false].  Within
    one request every read of the store comes before the only write, so
    the reads are functions of their arguments. *)
Record World : Type := {
  list_objects_v2 : string -> string -> option (list (string * value));
  get_object_body : string -> value -> option string;
  upload_fileobj : payload -> string -> string -> bool;
  generate_presigned_url : string -> string -> Z -> option string;
  json_loads : string -> option value;
  render_template : string -> list (string * value) -> option string;
  url_for : string -> option string
}.

(** What a handler answers: a body with a status, a redirection, or an
    exception that leaves the handler. *)
Inductive response : Type :=
| Reply (body : string) (status : Z)
| Redirect (location : string)
| Unhandled.

(** An entry of [request.files]. *)
Record FileStorage : Type := mkFile {
  filename : string;
  content : string
}.

Definition attempt {A : Type} (c : result A) : option A :=
  match c with
  | Ok a => Some a
  | Raise _ => None
  end.

(** [upload_file] (lines 24-43). *)
Definition upload_file (w : World) (files : list (string * FileStorage))
  : response * list upload :=
  match find (fun kv => String.eqb (fst kv) "file") files with
  | None => (Reply "No file uploaded" 400, [])
  | Some (_, file) =>
      if String.eqb (filename file) EmptyString then (Reply "No selected file" 400, [])
      else
        let '(file_name, file_extension) := PyMore.splitext (filename file) in
        if negb (String.eqb (Py.lower_str file_extension) ".csv")
        then (Reply "Only CSV files are allowed" 400, [])
        else if upload_fileobj w (FileBody (content file)) CSV_BUCKET (filename file)
        then
          let done := [mkUpload (FileBody (content file)) CSV_BUCKET (filename file)] in
          match url_for w "buffer" with
          | Some location => (Redirect location, done)
          | None => (Unhandled, done)
          end
        else (Unhandled, [])
  end.

(** The [try] block of [fetch_json_from_s3] (lines 89-101); [None] when
    an exception is raised in it. *)
Definition fetch_json_try (w : World) : option (value * value) :=
  match list_objects_v2 w JSON_BUCKET JSON_PREFIX with
  | None => None
  | Some response =>
      if match Py.assoc "Contents" response with
         | None => true
         | Some contents => negb (PyMore.truthy contents)
         end
      then Some (VNone, VNone)
      else
        match attempt (contents <- PyMore.getitem (VDict response) "Contents" ;;
                       first <- Py.getitem0 contents ;;
                       PyMore.getitem first "Key") with
        | None => None
        | Some json_file_key =>
            match get_object_body w JSON_BUCKET json_file_key with
            | None => None
            | Some json_content =>
                match json_loads w json_content with
                | None => None
                | Some parsed_json => Some (parsed_json, json_file_key)
                end
            end
        end
  end.

(** [fetch_json_from_s3] (lines 86-105). *)
Definition fetch_json_from_s3 (w : World) : value * value :=
  match fetch_json_try w with
  | Some found => found
  | None => (VNone, VNone)
  end.

(** [json_file_key.split("/")[-1].replace(".json", ".pdf")] (line 67). *)
Definition pdf_name (json_file_key : value) : result string :=
  match json_file_key with
  | VStr key =>
      Ok (PyMore.replace ".json" ".pdf" (last (PyMore.split_on "/"%char key) EmptyString))
  | _ => Raise AttributeError
  end.

Definition error_reply : response :=
  Reply "Error processing JSON file or file not found" 500.

Section Result.
Context {U : Unicode}.

(** [result] (lines 50-84), with the uploads it has made.  Its own
    [print] calls write ASCII text only. *)
Definition result (w : World) : response * list upload :=
  let '(json_data, json_file_key) := fetch_json_from_s3 w in
  match json_data with
  | VNone => (Reply "No compliance report found" 404, [])
  | _ =>
      match attempt (compliance_details <- extract_compliance_details json_data ;;
                     pdf_filename <- pdf_name json_file_key ;;
                     pdf_content <- generate_pdf compliance_details ;;
                     Ok (compliance_details, pdf_filename, pdf_content)) with
      | None => (error_reply, [])
      | Some (compliance_details, pdf_filename, pdf_content) =>
          if upload_fileobj w (PdfBody pdf_content) PDF_BUCKET pdf_filename then
            let done := [mkUpload (PdfBody pdf_content) PDF_BUCKET pdf_filename] in
            match generate_presigned_url w PDF_BUCKET pdf_filename 3600 with
            | None => (error_reply, done)
            | Some pdf_url =>
                match render_template w "result.html"
                        [("compliance", compliance_details); ("file_url", VStr pdf_url)] with
                | None => (error_reply, done)
                | Some page => (Reply page 200, done)
                end
            end
          else (error_reply, [])
      end
  end.

End Result.

End Web.

(** ** The job trigger ([lambda_handler] of [s32_macie_trigger.py]) *)

Module Trigger.

(** The collaborators of the handler: the STS and Macie clients, the
    clock and the source of identifiers.  A call that raises yields
    [None].  [error_text] is [str(e)] of the exception caught for an
    event. *)
Record Cloud : Type := {
  get_caller_identity : option (list (string * value));
  time_now : Z;
  uuid4 : string;
  create_classification_job : value -> option value;
  error_text : value -> string
}.

(** The keyword arguments of [create_classification_job] (lines 33-47). *)
Definition job_request (job_name : string) (account_id bucket_name : value)
    (client_token : string) : value :=
  VDict [("name", VStr job_name);
         ("description", VStr "Scan uploaded CSV for sensitive data");
         ("s3JobDefinition",
          VDict [("bucketDefinitions",
                  VList [VDict [("accountId", account_id);
                                ("buckets", VList [bucket_name])]])]);
         ("jobType", VStr "ONE_TIME");
         ("customDataIdentifierIds", VList []);
         ("initialRun", VBool true);
         ("clientToken", VStr client_token)].

(** Lines 15-17: the bucket name and the object key of the first record. *)
Definition first_record (event : value) : result (value * value) :=
  records <- PyMore.getitem event "Records" ;;
  record <- Py.getitem0 records ;;
  s3 <- PyMore.getitem record "s3" ;;
  bucket <- PyMore.getitem s3 "bucket" ;;
  bucket_name <- PyMore.getitem bucket "name" ;;
  s3' <- PyMore.getitem record "s3" ;;
  object <- PyMore.getitem s3' "object" ;;
  file_name <- PyMore.getitem object "key" ;;
  Ok (bucket_name, file_name).

(** The answer of the [except] branch (lines 58-63). *)
Definition failed (c : Cloud) (event : value) : value :=
  VDict [("statusCode", VInt 500);
         ("body", VStr ("Error: " ++ error_text c event))].

Section Handler.
Context {U : Unicode}.

(** [lambda_handler(event, context)] (lines 10-63), with the jobs it has
    created.  The [print] calls of lines 19 and 23 write values of the
    event and of the identity and fail when these cannot be encoded; the
    other ones write ASCII text, and the text of a caught exception is
    taken to be encodable. *)
Definition lambda_handler (c : Cloud) (event : value) : value * list value :=
  match first_record event with
  | Raise _ => (failed c event, [])
  | Ok (bucket_name, file_name) =>
      match Py.print ("New file uploaded: " ++ Py.str file_name
                      ++ " in " ++ Py.str bucket_name) with
      | Raise _ => (failed c event, [])
      | Ok _ =>
          match get_caller_identity c with
          | None => (failed c event, [])
          | Some caller =>
              match (account_id <- PyMore.getitem (VDict caller) "Account" ;;
                     printed <- Py.print ("Account ID: " ++ Py.str account_id) ;;
                     Ok account_id) with
              | Raise _ => (failed c event, [])
              | Ok account_id =>
                  let timestamp := time_now c in
                  let job_name := "MacieScanJob_" ++ Py.str_of_Z timestamp in
                  let client_token := uuid4 c in
                  let request :=
                    job_request job_name account_id bucket_name client_token in
                  match create_classification_job c request with
                  | None => (failed c event, [])
                  | Some response =>
                      (VDict [("statusCode", VInt 200);
                              ("body", VStr ("Macie Job '" ++ job_name
                                             ++ "' Triggered Successfully"))],
                       [request])
                  end
              end
          end
      end
  end.

End Handler.

End Trigger.

(** An S3 notification for one uploaded object, with further records. *)
Definition sample_event (more : list value) : value :=
  VDict [("Records",
          VList (VDict [("s3", VDict [("bucket", VDict [("name", VStr "hackathonwin")]);
                                      ("object", VDict [("key", VStr "data.csv")])])]
                 :: more))].

(** A cloud in which every call succeeds. *)
Definition calm_cloud : Trigger.Cloud :=
  {| Trigger.get_caller_identity := Some [("Account", VStr "123456789012")];
     Trigger.time_now := 1700000000;
     Trigger.uuid4 := "token";
     Trigger.create_classification_job := fun _ => Some (VDict [("jobId", VStr "j")]);
     Trigger.error_text := fun _ => "failed" |}.

(** A world in which every call succeeds. *)
Definition calm_world : Web.World :=
  {| Web.list_objects_v2 := fun _ _ =>
       Some [("Contents", VList [VDict [("Key", VStr "macie-findings/new.json")]])];
     Web.get_object_body := fun _ _ => Some "text";
     Web.upload_fileobj := fun _ _ _ => true;
     Web.generate_presigned_url := fun _ key _ => Some key;
     Web.json_loads := fun _ => Some (VList [sample_report]);
     Web.render_template := fun name _ => Some name;
     Web.url_for := fun endpoint => Some endpoint |}.

(** ** Auxiliary lemmas *)

Section Properties.
Context {U : Unicode}.

Lemma bind_ok {A B : Type} (c : result A) (k : A -> result B) (b : B) :
  bind c k = Ok b -> exists a, c = Ok a /\ k a = Ok b.
Proof.
  destruct c as [a | e]; simpl; intros H; [eauto | discriminate].
Qed.

Ltac bind_inv H :=
  let a := fresh "a" in
  let Ha := fresh "Ha" in
  apply bind_ok in H; destruct H as (a & Ha & H).

Lemma count_of_bump (rc : risk_counts) (r q : risk) :
  count_of (bump rc r) q = count_of rc q + (if risk_eqb r q then 1 else 0).
Proof.
  destruct rc, r, q; simpl; lia.
Qed.

Lemma tally_cons (r : risk) (c : value) (cs : list value) :
  tally r (c :: cs) = (if risk_eqb (fst (classify c)) r then 1 else 0) + tally r cs.
Proof.
  unfold tally; simpl.
  destruct (risk_eqb (fst (classify c)) r); simpl length; lia.
Qed.

Lemma tally_nonneg (r : risk) (cs : list value) : 0 <= tally r cs.
Proof. unfold tally; lia. Qed.

Lemma tally_total (cs : list value) :
  tally High cs + tally Medium cs + tally Low cs = Z.of_nat (length cs).
Proof.
  induction cs as [| c cs IH]; [reflexivity |].
  rewrite !tally_cons. change (length (c :: cs)) with (S (length cs)).
  destruct (fst (classify c)); cbn [risk_eqb]; lia.
Qed.

(** What the loop has done when it ends normally. *)
Lemma categorize_ok (items : list value) :
  forall rc sens rc' sens',
    categorize items rc sens = Ok (rc', sens') ->
    exists categories,
      Forall2 category_of items categories
      /\ sens' = (sens ++ map entry_of categories)%list
      /\ forall r, count_of rc' r = count_of rc r + tally r categories.
Proof.
  induction items as [| data rest IH]; intros rc sens rc' sens' H; simpl in H.
  - inversion H; subst. exists []. split; [constructor |]. split.
    + simpl. now rewrite app_nil_r.
    + intros r. unfold tally; simpl; lia.
  - bind_inv H. destruct (classify a) as [r action] eqn:Hc.
    apply IH in H. destruct H as (cats & Hcats & Hsens & Hcount).
    exists (a :: cats). split; [constructor; assumption |]. split.
    + rewrite Hsens, <- app_assoc. simpl. unfold entry_of. now rewrite Hc.
    + intros q. rewrite Hcount, tally_cons, Hc. simpl fst.
      fold (bump rc r). rewrite count_of_bump. lia.
Qed.

(** The loop ends normally when every item is a dict. *)
Lemma categorize_total (items : list value) :
  forallb is_dict items = true ->
  forall rc sens, exists out, categorize items rc sens = Ok out.
Proof.
  induction items as [| data rest IH]; intros Hd rc sens; simpl.
  - eauto.
  - simpl in Hd. apply andb_true_iff in Hd. destruct Hd as [Hd Hrest].
    destruct data; try discriminate. unfold Py.get.
    destruct (Py.assoc "category" l); cbn [bind];
      match goal with |- context [classify ?c] => destruct (classify c) end;
      apply IH; assumption.
Qed.

Lemma iter_len (obj : value) (items : list value) (n : Z) :
  Py.iter obj = Ok items -> Py.len obj = Ok n -> n = Z.of_nat (length items).
Proof.
  destruct obj; simpl; intros Hi Hl; try discriminate;
    inversion Hi; inversion Hl; subst; now rewrite ?length_map.
Qed.

Lemma forall2_length {A B : Type} (R : A -> B -> Prop) (l : list A) (l' : list B) :
  Forall2 R l l' -> length l = length l'.
Proof. induction 1; simpl; congruence. Qed.

Lemma get_dict (kvs : list (string * value)) (key : string) (default : value) :
  Py.get (VDict kvs) key default = Ok (get_or (VDict kvs) key default).
Proof.
  unfold Py.get, get_or, field. destruct (Py.assoc key kvs); reflexivity.
Qed.

Lemma get_ok (obj : value) (key : string) (default v : value) :
  Py.get obj key default = Ok v ->
  is_dict obj = true /\ v = get_or obj key default.
Proof.
  destruct obj; try discriminate. rewrite get_dict. intros H; inversion H. auto.
Qed.

Lemma compliance_dict_ok (report severity : value) (rc : risk_counts)
    (sens : list value) (sensitive_data cd : value) :
  compliance_dict report severity rc sens sensitive_data = Ok cd ->
  exists n,
  Py.len sensitive_data = Ok n /\
  cd = report_literal severity
         (get_or report "category" (VStr "Unknown"))
         (get_or report "count" (VInt 0))
         (get_or report "description" (VStr "No description available"))
         (get_or report "updatedAt" (VStr "Unknown"))
         (count_of rc High) (count_of rc Medium) (count_of rc Low) sens
         (Z.min 100 (count_of rc High * 30 + 50))
         (Z.min 100 (count_of rc Medium * 20 + 60))
         (Z.min 100 (count_of rc Low * 10 + 70))
         (Z.min 100 (n * 15 + 55))
         (Z.min 100 (count_of rc High * 25 + 45)).
Proof.
  unfold compliance_dict. intros H.
  destruct report; try discriminate.
  rewrite !get_dict in H. cbn [bind] in H.
  bind_inv H. exists a. inversion H. auto.
Qed.

Lemma compliance_dict_total (kvs : list (string * value)) (severity : value)
    (rc : risk_counts) (sens items : list value) :
  exists cd, compliance_dict (VDict kvs) severity rc sens (VList items) = Ok cd.
Proof.
  unfold compliance_dict. rewrite !get_dict. cbn [bind Py.len]. eauto.
Qed.

(** Every normal run of the extractor, step by step. *)
Lemma extract_ok (json_data cd : value) :
  extract_compliance_details json_data = Ok cd ->
  exists report s items categories rc,
    Py.getitem0 json_data = Ok report
    /\ severity_of report = Ok (VStr s)
    /\ sensitive_items report = Ok items
    /\ Forall2 category_of items categories
    /\ (forall r, count_of rc r
                  = count_of (seed_risk_counts (Py.lower_str s)) r + tally r categories)
    /\ cd = report_literal (VStr s)
              (get_or report "category" (VStr "Unknown"))
              (get_or report "count" (VInt 0))
              (get_or report "description" (VStr "No description available"))
              (get_or report "updatedAt" (VStr "Unknown"))
              (count_of rc High) (count_of rc Medium) (count_of rc Low)
              (map entry_of categories)
              (Z.min 100 (count_of rc High * 30 + 50))
              (Z.min 100 (count_of rc Medium * 20 + 60))
              (Z.min 100 (count_of rc Low * 10 + 70))
              (Z.min 100 (Z.of_nat (length items) * 15 + 55))
              (Z.min 100 (count_of rc High * 25 + 45)).
Proof.
  unfold extract_compliance_details. intros H.
  bind_inv H. rename a into report.
  bind_inv H. rename a into severity.
  bind_inv H. rename a into printed.
  bind_inv H. rename a into low.
  bind_inv H. rename a into sensitive_data.
  bind_inv H. rename a into items.
  bind_inv H. destruct a as [rc sens].
  apply compliance_dict_ok in H. destruct H as (n & Hn & Hcd).
  destruct severity; try discriminate.
  match goal with Hl : Py.lower _ = Ok _ |- _ => simpl in Hl; inversion Hl; subst low end.
  match goal with Hc : categorize _ _ _ = Ok _ |- _ =>
    apply categorize_ok in Hc; destruct Hc as (cats & Hcats & Hsens & Hcount) end.
  simpl in Hsens. subst sens.
  match goal with Hi : Py.iter _ = Ok _ |- _ =>
    pose proof (iter_len _ _ _ Hi Hn) as Hlen end.
  subst n.
  exists report, s, items, cats, rc.
  repeat split; try assumption.
  unfold sensitive_items.
  match goal with Hs : sensitive_data_of _ = Ok _ |- _ => rewrite Hs end.
  assumption.
Qed.

Lemma seed_counts (s : string) :
  forall r, 0 <= count_of (seed_risk_counts s) r
  /\ total (seed_risk_counts s) = 1.
Proof.
  intros r. unfold seed_risk_counts.
  destruct (String.eqb s "high"); [| destruct (String.eqb s "medium")];
    destruct r; simpl; unfold total; simpl; lia.
Qed.

(** The prefix of line 117 adds no surrogate. *)
Lemma has_surrogate_severity (s : string) :
  Py.has_surrogate ("Extracted Severity: " ++ s) = Py.has_surrogate s.
Proof.
  destruct s; reflexivity.
Qed.

Lemma print_severity (s : string) :
  Py.has_surrogate s = false ->
  Py.print ("Extracted Severity: " ++ Py.str (VStr s)) = Ok tt.
Proof.
  intros H. unfold Py.print. cbn [Py.str].
  now rewrite has_surrogate_severity, H.
Qed.

Lemma severity_total (report : value) :
  optional report "severity"
    (fun sev => optional sev "description" is_encodable_str) = true ->
  exists s, severity_of report = Ok (VStr s) /\ Py.has_surrogate s = false.
Proof.
  unfold optional, severity_of. destruct report as [| | | | | | kvs]; try discriminate.
  rewrite get_dict. cbn [bind]. unfold get_or, field.
  destruct (Py.assoc "severity" kvs) as [sev |].
  - destruct sev as [| | | | | | skvs]; try discriminate.
    rewrite get_dict. unfold get_or, field.
    destruct (Py.assoc "description" skvs) as [d |]; [| eauto].
    destruct d; try discriminate. cbn [is_encodable_str]. intros H.
    apply negb_true_iff in H. eauto.
  - intros _. simpl. eauto.
Qed.

Lemma sensitive_total (report : value) :
  optional report "classificationDetails" (fun details =>
    optional details "result" (fun res =>
      optional res "sensitiveData" is_list_of_dicts)) = true ->
  exists items, sensitive_data_of report = Ok (VList items)
                /\ forallb is_dict items = true.
Proof.
  unfold optional, sensitive_data_of. destruct report as [| | | | | | kvs]; try discriminate.
  rewrite get_dict. cbn [bind]. unfold get_or, field.
  destruct (Py.assoc "classificationDetails" kvs) as [det |].
  - destruct det as [| | | | | | dkvs]; try discriminate.
    rewrite get_dict. cbn [bind]. unfold get_or, field.
    destruct (Py.assoc "result" dkvs) as [res |].
    + destruct res as [| | | | | | rkvs]; try discriminate.
      rewrite get_dict. unfold get_or, field.
      destruct (Py.assoc "sensitiveData" rkvs) as [sd |].
      * destruct sd; try discriminate. simpl. eauto.
      * intros _. exists []. auto.
    + intros _. simpl. exists []. auto.
  - intros _. simpl. exists []. auto.
Qed.

(** The extractor ends normally on a well-formed first element. *)
Lemma extract_total (report : value) (rest : list value) :
  well_formed_report report = true ->
  exists cd, extract_compliance_details (VList (report :: rest)) = Ok cd.
Proof.
  unfold well_formed_report. intros H.
  apply andb_true_iff in H. destruct H as [Hsev Hsd].
  assert (Hdict : exists kvs, report = VDict kvs).
  { destruct report; try discriminate. eauto. }
  apply severity_total in Hsev. destruct Hsev as (s & Hs & Henc).
  apply sensitive_total in Hsd. destruct Hsd as (items & Hitems & Hall).
  destruct Hdict as [kvs ->].
  unfold extract_compliance_details. cbn [Py.getitem0 bind].
  rewrite Hs. cbn [bind]. rewrite (print_severity s Henc). cbn [bind Py.lower].
  rewrite Hitems. cbn [bind Py.iter].
  destruct (categorize_total items Hall (seed_risk_counts (Py.lower_str s)) [])
    as [[rc sens] Hc].
  rewrite Hc. cbn [bind].
  apply compliance_dict_total.
Qed.

Lemma forall2_nth {A B : Type} (R : A -> B -> Prop) (l : list A) (l' : list B) :
  Forall2 R l l' ->
  forall i a, nth_error l i = Some a ->
              exists b, nth_error l' i = Some b /\ R a b.
Proof.
  induction 1 as [| x y l l' Hxy _ IH]; intros i a Hi.
  - destruct i; discriminate.
  - destruct i as [| i]; simpl in *.
    + inversion Hi; subst. eauto.
    + eauto.
Qed.

Lemma field_type_entry (category : value) :
  field "type" (entry_of category) = Some category.
Proof.
  unfold entry_of. destruct (classify category). reflexivity.
Qed.

Lemma str_app_assoc (a b c : string) : ((a ++ b) ++ c = a ++ (b ++ c))%string.
Proof.
  induction a as [| x a IH]; simpl; [reflexivity | now rewrite IH].
Qed.

Lemma str_sensitivity (category : value) (r : risk) (action : string) :
  Py.str (sensitivity category r action) = entry_dump category r action.
Proof.
  unfold entry_dump, sensitivity, Py.str.
  cbn [Py.repr map Py.join].
  change (Py.repr_str "type") with "'type'".
  change (Py.repr_str "visibility") with "'visibility'".
  change (Py.repr_str "risk") with "'risk'".
  change (Py.repr_str "action") with "'action'".
  change (Py.repr_str "Partially Visible") with "'Partially Visible'".
  replace (Py.repr_str (risk_name r)) with ("'" ++ risk_name r ++ "'")
    by (destruct r; reflexivity).
  repeat rewrite str_app_assoc. reflexivity.
Qed.

Lemma draw_sensitivities_lines (entries : list value) :
  forall canvas y,
    draw_sensitivities entries canvas y
    = ((canvas ++ lines_at 120 y (entry_texts entries))%list,
       y - 20 * Z.of_nat (length entries)).
Proof.
  unfold entry_texts.
  induction entries as [| e rest IH]; intros canvas y.
  - simpl. rewrite app_nil_r. f_equal. lia.
  - cbn [draw_sensitivities]. rewrite IH. cbn [map lines_at length].
    rewrite <- app_assoc. f_equal. lia.
Qed.

Lemma lines_at_length (x y : Z) (texts : list string) :
  length (lines_at x y texts) = length texts.
Proof.
  revert y. induction texts as [| t rest IH]; intros y; simpl; [| rewrite IH]; reflexivity.
Qed.

Lemma lines_at_nth (x : Z) (texts : list string) :
  forall y i t,
    nth_error texts i = Some t ->
    nth_error (lines_at x y texts) i = Some (DrawString x (y - 20 * Z.of_nat i) t).
Proof.
  induction texts as [| t0 rest IH]; intros y i t Hi.
  - destruct i; discriminate.
  - destruct i as [| i].
    + simpl in *. inversion Hi. do 2 f_equal. lia.
    + cbn [nth_error lines_at] in *. rewrite (IH _ _ _ Hi). do 2 f_equal. lia.
Qed.

Lemma lines_at_no_page_break (x y : Z) (texts : list string) :
  ~ In ShowPage (lines_at x y texts).
Proof.
  revert y. induction texts as [| t rest IH]; intros y; simpl; [tauto |].
  intros [H | H]; [discriminate | exact (IH _ H)].
Qed.

Lemma lines_at_app (x : Z) (a b : list string) :
  forall y,
    lines_at x y (a ++ b)
    = (lines_at x y a ++ lines_at x (y - 20 * Z.of_nat (length a)) b)%list.
Proof.
  induction a as [| t rest IH]; intros y.
  - simpl. f_equal. lia.
  - cbn [app lines_at length]. rewrite IH. do 3 f_equal. lia.
Qed.

(** The loop of [generate_pdf] over fields none of which is the
    sensitivities. *)
Lemma draw_items_plain (fields : list (string * value)) :
  forallb plain_key fields = true ->
  forall canvas y,
    draw_items fields canvas y
    = Ok ((canvas ++ lines_at 100 y (map field_text fields))%list,
          y - 20 * Z.of_nat (length fields)).
Proof.
  induction fields as [| [key val] rest IH]; intros Hplain canvas y.
  - simpl. rewrite app_nil_r. do 2 f_equal. lia.
  - cbn [forallb] in Hplain. apply andb_true_iff in Hplain.
    destruct Hplain as [Hkey Hrest]. unfold plain_key in Hkey. cbn [fst] in Hkey.
    apply negb_true_iff in Hkey.
    cbn [draw_items]. rewrite Hkey, (IH Hrest).
    cbn [map lines_at length field_text fst snd].
    rewrite <- app_assoc. do 2 f_equal. lia.
Qed.

Lemma draw_items_app (l1 l2 : list (string * value)) :
  forall canvas y canvas' y',
    draw_items l1 canvas y = Ok (canvas', y') ->
    draw_items (l1 ++ l2) canvas y = draw_items l2 canvas' y'.
Proof.
  induction l1 as [| [key val] rest IH]; intros canvas y canvas' y' H.
  - simpl in H. inversion H. reflexivity.
  - cbn [app draw_items] in *.
    destruct (String.eqb key "Sensitivities").
    + destruct (Py.iter val) as [entries | e]; [| discriminate H].
      cbn [bind] in *.
      destruct (draw_sensitivities entries _ _) as [cv yy].
      exact (IH _ _ _ _ H).
    + exact (IH _ _ _ _ H).
Qed.

(** The canvas and the cursor after the loop, on a report dict. *)
Lemma render_fields_literal (rl c n d u : value) (h m l : Z) (sens : list value)
    (dp ac sm pr en : Z) :
  render_fields (report_literal rl c n d u h m l sens dp ac sm pr en)
  = Ok ((preamble
         ++ lines_at 100 700 (head_texts rl c n d u h m l)
         ++ lines_at 120 520 (entry_texts sens)
         ++ lines_at 100 (520 - 20 * Z.of_nat (length sens))
              (tail_texts dp ac sm pr en))%list,
        420 - 20 * Z.of_nat (length sens)).
Proof.
  set (before := [("Risk Level", rl); ("Category", c); ("Findings Count", n);
                  ("Description", d); ("Last Updated", u); ("High Risk", VInt h);
                  ("Medium Risk", VInt m); ("Low Risk", VInt l)]).
  set (after := [("Data Protection", VInt dp); ("Access Control", VInt ac);
                 ("Security Monitoring", VInt sm); ("Privacy", VInt pr);
                 ("Encryption", VInt en)]).
  change (report_literal rl c n d u h m l sens dp ac sm pr en)
    with (VDict (before ++ ("Sensitivities", VList sens) :: after)%list).
  unfold render_fields. fold preamble.
  change ((([SetFont "Helvetica" 12] ++ [DrawString 100 750 "Compliance Report"])
           ++ [DrawString 100 730 (repeat_str "-" 50)])%list) with preamble.
  rewrite (draw_items_app before _ preamble 700 _ _
             (draw_items_plain before eq_refl preamble 700)).
  cbn [draw_items]. change (String.eqb "Sensitivities" "Sensitivities") with true.
  cbn iota. cbn [Py.iter bind].
  rewrite draw_sensitivities_lines.
  rewrite (draw_items_plain after eq_refl).
  change (head_texts rl c n d u h m l)
    with (map field_text before ++ ["Sensitivities:"])%list.
  change (tail_texts dp ac sm pr en) with (map field_text after).
  rewrite lines_at_app.
  change (length before) with 8%nat. change (length after) with 5%nat.
  rewrite length_map. change (length before) with 8%nat.
  cbn [lines_at].
  repeat rewrite <- app_assoc. cbn [app].
  replace (700 - 20 * Z.of_nat 8) with 540 by lia.
  replace (540 - 20) with 520 by lia.
  change ("Sensitivities" ++ ":") with "Sensitivities:".
  do 2 f_equal. lia.
Qed.

Lemma get_missing (obj : value) (key : string) (default v : value) :
  Py.get obj key default = Ok v -> field key obj = None -> v = default.
Proof.
  intros H Hf. apply get_ok in H. destruct H as [_ ->].
  unfold get_or. now rewrite Hf.
Qed.

Lemma get_present (obj : value) (key : string) (default v x : value) :
  Py.get obj key default = Ok v -> field key obj = Some x -> v = x.
Proof.
  intros H Hf. apply get_ok in H. destruct H as [_ ->].
  unfold get_or. now rewrite Hf.
Qed.

Lemma severity_default (report v : value) :
  severity_of report = Ok v -> severity_missing report -> v = VStr "Unknown".
Proof.
  unfold severity_of. intros H Hm. bind_inv H.
  destruct Hm as [Hnone | (sev & Hsome & Hdesc)].
  - rewrite (get_missing _ _ _ _ Ha Hnone) in H. simpl in H. now inversion H.
  - rewrite (get_present _ _ _ _ _ Ha Hsome) in H.
    exact (get_missing _ _ _ _ H Hdesc).
Qed.

Lemma sensitive_default (report v : value) :
  sensitive_data_of report = Ok v -> sensitive_data_missing report -> v = VList [].
Proof.
  unfold sensitive_data_of. intros H Hm. bind_inv H. bind_inv H.
  destruct Hm as [Hnone | (details & Hsome & Hm)].
  - rewrite (get_missing _ _ _ _ Ha Hnone) in Ha0. simpl in Ha0.
    inversion Ha0; subst a0. simpl in H. now inversion H.
  - rewrite (get_present _ _ _ _ _ Ha Hsome) in Ha0.
    destruct Hm as [Hnone | (res & Hres & Hsd)].
    + rewrite (get_missing _ _ _ _ Ha0 Hnone) in H. simpl in H. now inversion H.
    + rewrite (get_present _ _ _ _ _ Ha0 Hres) in H.
      exact (get_missing _ _ _ _ H Hsd).
Qed.

(** ** Properties of the pipeline *)

(** C1. The risk assessment of a category string follows the rule table:
    FINANCIAL, PERSONAL_HEALTH and SSN are High with the action
    "Immediately protect <category> information"; EMAIL, PHONE and ADDRESS
    are Medium with "Review and secure <category> data handling"; any other
    string, compared exactly, is Low with the constant action.  [classify]
    is a function, so every category has an assessment. *)
Theorem classify_table (category : string) :
  (In category ["FINANCIAL"; "PERSONAL_HEALTH"; "SSN"] ->
     classify (VStr category)
     = (High, "Immediately protect " ++ category ++ " information"))
  /\ (In category ["EMAIL"; "PHONE"; "ADDRESS"] ->
        classify (VStr category)
        = (Medium, "Review and secure " ++ category ++ " data handling"))
  /\ (~ In category ["FINANCIAL"; "PERSONAL_HEALTH"; "SSN"] ->
      ~ In category ["EMAIL"; "PHONE"; "ADDRESS"] ->
        classify (VStr category)
        = (Low, "Maintain current data protection measures")).
Proof.
  split; [| split].
  - intros H. simpl in H. destruct H as [<- | [<- | [<- | []]]]; reflexivity.
  - intros H. simpl in H. destruct H as [<- | [<- | [<- | []]]]; reflexivity.
  - intros Hh Hm. unfold classify, Py.in_strs.
    destruct (existsb _ ["FINANCIAL"; "PERSONAL_HEALTH"; "SSN"]) eqn:E1.
    + apply existsb_exists in E1. destruct E1 as (x & Hx & Heq).
      apply String.eqb_eq in Heq. subst x. contradiction.
    + destruct (existsb _ ["EMAIL"; "PHONE"; "ADDRESS"]) eqn:E2; [| reflexivity].
      apply existsb_exists in E2. destruct E2 as (x & Hx & Heq).
      apply String.eqb_eq in Heq. subst x. contradiction.
Qed.

(** C2. On a findings record with at least one element, the three tier
    counts of the report that extraction builds add up to one, for the
    severity seed, plus the number of sensitive-data items of the first
    element. *)
Theorem tier_counts_sum (report : value) (rest : list value) (cd : value) :
  extract_compliance_details (VList (report :: rest)) = Ok cd ->
  exists items high medium low,
    sensitive_items report = Ok items
    /\ field "High Risk" cd = Some (VInt high)
    /\ field "Medium Risk" cd = Some (VInt medium)
    /\ field "Low Risk" cd = Some (VInt low)
    /\ high + medium + low = 1 + Z.of_nat (length items).
Proof.
  intros H. apply extract_ok in H.
  destruct H as (report' & s & items & cats & rc & Hget & _ & Hitems & Hcats & Hcount & Hcd).
  simpl in Hget. inversion Hget; subst report'.
  subst cd.
  exists items, (count_of rc High), (count_of rc Medium), (count_of rc Low).
  repeat split; try assumption.
  rewrite !Hcount.
  pose proof (tally_total cats) as Ht.
  pose proof (proj2 (seed_counts (Py.lower_str s) High)) as Hs. unfold total in Hs.
  rewrite (forall2_length _ _ _ Hcats).
  simpl count_of. lia.
Qed.

(** C3. The severity description is compared in lower case and shown as
    written: a description whose lower case is "high" seeds the High
    bucket with 1, one whose lower case is "medium" seeds the Medium
    bucket, any other, the default "Unknown" included, seeds the Low
    bucket; the buckets of the report are that seed plus the tally of the
    items, and the "Risk Level" field is the description itself. *)
Theorem severity_seeding (report : value) (rest : list value) (cd : value) (s : string) :
  severity_of report = Ok (VStr s) ->
  extract_compliance_details (VList (report :: rest)) = Ok cd ->
  field "Risk Level" cd = Some (VStr s)
  /\ seed_risk_counts (Py.lower_str "Unknown") = mkCounts 0 0 1
  /\ exists items categories,
       sensitive_items report = Ok items
       /\ Forall2 category_of items categories
       /\ (Py.lower_str s = "high" ->
             seed_risk_counts (Py.lower_str s) = mkCounts 1 0 0
             /\ field "High Risk" cd = Some (VInt (1 + tally High categories))
             /\ field "Medium Risk" cd = Some (VInt (0 + tally Medium categories))
             /\ field "Low Risk" cd = Some (VInt (0 + tally Low categories)))
       /\ (Py.lower_str s = "medium" ->
             seed_risk_counts (Py.lower_str s) = mkCounts 0 1 0
             /\ field "High Risk" cd = Some (VInt (0 + tally High categories))
             /\ field "Medium Risk" cd = Some (VInt (1 + tally Medium categories))
             /\ field "Low Risk" cd = Some (VInt (0 + tally Low categories)))
       /\ (Py.lower_str s <> "high" -> Py.lower_str s <> "medium" ->
             seed_risk_counts (Py.lower_str s) = mkCounts 0 0 1
             /\ field "High Risk" cd = Some (VInt (0 + tally High categories))
             /\ field "Medium Risk" cd = Some (VInt (0 + tally Medium categories))
             /\ field "Low Risk" cd = Some (VInt (1 + tally Low categories))).
Proof.
  intros Hsev H. apply extract_ok in H.
  destruct H as (report' & s' & items & cats & rc & Hget & Hsev' & Hitems & Hcats & Hcount & Hcd).
  simpl in Hget. inversion Hget; subst report'.
  rewrite Hsev in Hsev'. inversion Hsev'; subst s'.
  subst cd.
  split; [reflexivity |]. split; [reflexivity |].
  exists items, cats. split; [assumption |]. split; [assumption |].
  cbn [field report_literal Py.assoc String.eqb Ascii.eqb Bool.eqb].
  rewrite !Hcount. unfold seed_risk_counts.
  split; [| split].
  - intros ->. simpl. auto.
  - intros ->. simpl. auto.
  - intros Hh Hm.
    apply String.eqb_neq in Hh. apply String.eqb_neq in Hm.
    rewrite Hh, Hm. simpl. auto.
Qed.

(** C4. The five composite metrics of the report are
    min(100, High*30+50), min(100, Medium*20+60), min(100, Low*10+70),
    min(100, sensitivityCount*15+55) and min(100, High*25+45), where
    sensitivityCount is the number of sensitive-data items, and each lies
    in the closed range from 0 to 100. *)
Theorem metric_formulas (json_data cd : value) :
  extract_compliance_details json_data = Ok cd ->
  exists report items high medium low sens dp ac sm pr en,
    Py.getitem0 json_data = Ok report
    /\ sensitive_items report = Ok items
    /\ field "High Risk" cd = Some (VInt high)
    /\ field "Medium Risk" cd = Some (VInt medium)
    /\ field "Low Risk" cd = Some (VInt low)
    /\ field "Sensitivities" cd = Some (VList sens)
    /\ length sens = length items
    /\ field "Data Protection" cd = Some (VInt dp)
    /\ field "Access Control" cd = Some (VInt ac)
    /\ field "Security Monitoring" cd = Some (VInt sm)
    /\ field "Privacy" cd = Some (VInt pr)
    /\ field "Encryption" cd = Some (VInt en)
    /\ dp = Z.min 100 (high * 30 + 50)
    /\ ac = Z.min 100 (medium * 20 + 60)
    /\ sm = Z.min 100 (low * 10 + 70)
    /\ pr = Z.min 100 (Z.of_nat (length items) * 15 + 55)
    /\ en = Z.min 100 (high * 25 + 45)
    /\ (0 <= dp <= 100) /\ (0 <= ac <= 100) /\ (0 <= sm <= 100)
    /\ (0 <= pr <= 100) /\ (0 <= en <= 100).
Proof.
  intros H. apply extract_ok in H.
  destruct H as (report & s & items & cats & rc & Hget & _ & Hitems & Hcats & Hcount & Hcd).
  subst cd.
  assert (Hnn : forall r, 0 <= count_of rc r).
  { intros r. rewrite Hcount.
    pose proof (proj1 (seed_counts (Py.lower_str s) r)).
    pose proof (tally_nonneg r cats). lia. }
  pose proof (Hnn High). pose proof (Hnn Medium). pose proof (Hnn Low).
  do 2 eexists. exists (count_of rc High), (count_of rc Medium), (count_of rc Low).
  do 6 eexists.
  split; [exact Hget |]. split; [exact Hitems |].
  do 4 (split; [reflexivity |]).
  split; [rewrite length_map; symmetry; exact (forall2_length _ _ _ Hcats) |].
  do 5 (split; [reflexivity |]).
  do 5 (split; [reflexivity |]).
  repeat split; lia.
Qed.

(** C5. The Sensitivities of the report have the length and the order of
    the sensitive-data items: the i-th entry is built from the i-th item,
    its type being that item's category; nothing is sorted, dropped or
    merged. *)
Theorem sensitivities_in_order (report : value) (rest : list value) (cd : value) :
  extract_compliance_details (VList (report :: rest)) = Ok cd ->
  exists items sens,
    sensitive_items report = Ok items
    /\ field "Sensitivities" cd = Some (VList sens)
    /\ length sens = length items
    /\ forall i item,
         nth_error items i = Some item ->
         exists category,
           category_of item category
           /\ nth_error sens i = Some (entry_of category)
           /\ field "type" (entry_of category) = Some category.
Proof.
  intros H. apply extract_ok in H.
  destruct H as (report' & s & items & cats & rc & Hget & _ & Hitems & Hcats & _ & Hcd).
  simpl in Hget. inversion Hget; subst report'.
  subst cd.
  exists items, (map entry_of cats).
  split; [assumption |]. split; [reflexivity |].
  split; [rewrite length_map; symmetry; exact (forall2_length _ _ _ Hcats) |].
  intros i item Hi.
  destruct (forall2_nth _ _ _ Hcats i item Hi) as (c & Hc & Hcat).
  exists c. split; [assumption |]. split; [| apply field_type_entry].
  rewrite nth_error_map, Hc. reflexivity.
Qed.

(** C6. On the empty findings record extraction fails with the error of
    the empty record, raised by the access to element 0 before anything is
    built: no report value is produced and nothing is rendered. *)
Theorem empty_record_fails :
  extract_compliance_details (VList []) = Raise IndexError
  /\ (forall cd, extract_compliance_details (VList []) <> Ok cd)
  /\ pipeline (VList []) = Raise IndexError.
Proof.
  split; [reflexivity |]. split; [| reflexivity].
  intros cd H. discriminate H.
Qed.

(** C7. Only element 0 is consumed: two non-empty findings records with
    the same first element give the same outcome of extraction, and so of
    the whole pipeline, whatever their further elements are. *)
Theorem tail_is_ignored (first : value) (rest1 rest2 : list value) :
  extract_compliance_details (VList (first :: rest1))
  = extract_compliance_details (VList (first :: rest2))
  /\ pipeline (VList (first :: rest1)) = pipeline (VList (first :: rest2)).
Proof.
  split; reflexivity.
Qed.

(** C8, amended. On a record whose first element is well formed (an
    object whose consumed containers, when present, have their documented
    type, the severity description, which is printed, being a string that
    standard output can encode, that is, one without a lone surrogate)
    extraction never raises, and every missing field takes its documented
    default: severity description "Unknown", category
    "Unknown", count 0, description "No description available", updatedAt
    "Unknown", sensitive data the empty sequence, item category
    "Unknown". *)
Theorem missing_fields_default (report : value) (rest : list value) :
  well_formed_report report = true ->
  exists cd,
    extract_compliance_details (VList (report :: rest)) = Ok cd
    /\ (severity_missing report -> field "Risk Level" cd = Some (VStr "Unknown"))
    /\ (field "category" report = None ->
          field "Category" cd = Some (VStr "Unknown"))
    /\ (field "count" report = None ->
          field "Findings Count" cd = Some (VInt 0))
    /\ (field "description" report = None ->
          field "Description" cd = Some (VStr "No description available"))
    /\ (field "updatedAt" report = None ->
          field "Last Updated" cd = Some (VStr "Unknown"))
    /\ (sensitive_data_missing report ->
          field "Sensitivities" cd = Some (VList []))
    /\ (forall items sens i item,
          sensitive_items report = Ok items ->
          field "Sensitivities" cd = Some (VList sens) ->
          nth_error items i = Some item ->
          field "category" item = None ->
          exists e, nth_error sens i = Some e
                    /\ field "type" e = Some (VStr "Unknown")).
Proof.
  intros Hwf. destruct (extract_total report rest Hwf) as [cd Hcd].
  exists cd. split; [exact Hcd |].
  apply extract_ok in Hcd.
  destruct Hcd as (report' & s & items & cats & rc & Hget & Hsev & Hitems & Hcats & _ & ->).
  simpl in Hget. inversion Hget; subst report'. clear Hget.
  split; [| split; [| split; [| split; [| split; [| split]]]]].
  - intros Hm. rewrite (severity_default _ _ Hsev Hm). reflexivity.
  - intros Hm. unfold get_or. rewrite Hm. reflexivity.
  - intros Hm. unfold get_or. rewrite Hm. reflexivity.
  - intros Hm. unfold get_or. rewrite Hm. reflexivity.
  - intros Hm. unfold get_or. rewrite Hm. reflexivity.
  - intros Hm. unfold sensitive_items in Hitems. bind_inv Hitems.
    rewrite (sensitive_default _ _ Ha Hm) in Hitems. simpl in Hitems.
    inversion Hitems; subst items. inversion Hcats; subst cats. reflexivity.
  - intros items' sens i item Hitems' Hsens Hi Hnone.
    rewrite Hitems in Hitems'. inversion Hitems'; subst items'.
    cbn in Hsens. inversion Hsens; subst sens.
    destruct (forall2_nth _ _ _ Hcats i item Hi) as (c & Hc & Hcat).
    unfold category_of in Hcat.
    rewrite (get_missing _ _ _ _ Hcat Hnone) in Hc.
    exists (entry_of (VStr "Unknown")). split; [| reflexivity].
    rewrite nth_error_map, Hc. reflexivity.
Qed.

(** C9. Rendering a report emits the title line, then the separator
    line, then one line per field at the left margin 100, the cursor going
    down from 700 by 20 per line, the fields coming in the fixed key order
    Risk Level, Category, Findings Count, Description, Last Updated, High
    Risk, Medium Risk, Low Risk, Sensitivities, Data Protection, Access
    Control, Security Monitoring, Privacy, Encryption; the Sensitivities
    field gives its label line, then one line per entry at the indented
    margin 120, in sequence order, each a flat dump of the keys and values
    of the entry. *)
Theorem rendering_layout (json_data cd : value) :
  extract_compliance_details json_data = Ok cd ->
  exists rl c n d u h m l sens dp ac sm pr en,
    cd = report_literal rl c n d u h m l sens dp ac sm pr en
    /\ generate_pdf cd
       = Ok (preamble
             ++ lines_at 100 700 (head_texts rl c n d u h m l)
             ++ lines_at 120 520 (entry_texts sens)
             ++ lines_at 100 (520 - 20 * Z.of_nat (length sens))
                  (tail_texts dp ac sm pr en)
             ++ [Save])%list
    /\ Forall (fun e => exists category r action,
                          e = sensitivity category r action
                          /\ Py.str e = entry_dump category r action) sens.
Proof.
  intros H. apply extract_ok in H.
  destruct H as (report & s & items & cats & rc & _ & _ & _ & _ & _ & ->).
  do 14 eexists. split; [reflexivity |]. split.
  - unfold generate_pdf. rewrite render_fields_literal. cbn [bind fst].
    repeat rewrite <- app_assoc. reflexivity.
  - apply Forall_forall. intros e He.
    apply in_map_iff in He. destruct He as (c & <- & _).
    unfold entry_of. destruct (classify c) as [r action].
    exists c, r, action. split; [reflexivity | apply str_sensitivity].
Qed.

(** C10. Rendering has no page-overflow handling: on every report it
    ends normally, whatever the number of sensitivities; it draws the 3
    opening calls, the 14 field lines and one line per sensitivity, none
    dropped, on one page without a page break; the cursor ends at
    420 - 20 * (number of sensitivities), and from 23 sensitivities on the
    last line is drawn at a negative height. *)
Theorem rendering_no_overflow_handling (json_data cd : value) :
  extract_compliance_details json_data = Ok cd ->
  exists sens canvas,
    field "Sensitivities" cd = Some (VList sens)
    /\ render_fields cd = Ok (canvas, 420 - 20 * Z.of_nat (length sens))
    /\ generate_pdf cd = Ok (canvas ++ [Save])%list
    /\ length canvas = (17 + length sens)%nat
    /\ ~ In ShowPage canvas
    /\ (forall i e, nth_error sens i = Some e ->
          In (DrawString 120 (520 - 20 * Z.of_nat i) ("- " ++ Py.str e)) canvas)
    /\ (exists text,
          last canvas Save
          = DrawString 100 (440 - 20 * Z.of_nat (length sens)) text)
    /\ ((23 <= length sens)%nat ->
          440 - 20 * Z.of_nat (length sens) < 0
          /\ 420 - 20 * Z.of_nat (length sens) < 0).
Proof.
  intros H. apply extract_ok in H.
  destruct H as (report & s & items & cats & rc & _ & _ & _ & _ & _ & ->).
  set (sens := map entry_of cats).
  eexists sens, _.
  split; [reflexivity |].
  split; [apply render_fields_literal |].
  split; [unfold generate_pdf; rewrite render_fields_literal; reflexivity |].
  split; [| split; [| split; [| split]]].
  - rewrite !length_app, !lines_at_length. unfold entry_texts.
    rewrite length_map. simpl. lia.
  - intros Hin. repeat (apply in_app_or in Hin; destruct Hin as [Hin | Hin]);
      try (exact (lines_at_no_page_break _ _ _ Hin)).
    simpl in Hin. repeat destruct Hin as [Hin | Hin]; try discriminate Hin. exact Hin.
  - intros i e Hi.
    apply in_or_app; right. apply in_or_app; right. apply in_or_app; left.
    apply (nth_error_In _ i). apply lines_at_nth.
    unfold entry_texts. rewrite nth_error_map, Hi. reflexivity.
  - eexists. rewrite !app_assoc. unfold tail_texts. cbn [lines_at].
    match goal with |- last (?p ++ ?q) _ = _ =>
      change q with ((firstn 4 q) ++ [nth 4 q Save])%list end.
    rewrite app_assoc, last_last. cbn [nth]. f_equal. lia.
  - intros Hn. lia.
Qed.

(** ** Further properties of the extractor and the renderer *)

Ltac bind_as H x Hx :=
  apply bind_ok in H; destruct H as (x & Hx & H).

Lemma get_raises (obj : value) (key : string) (default : value) (e : exn) :
  Py.get obj key default = Raise e -> e = AttributeError /\ is_dict obj = false.
Proof.
  destruct obj; simpl; intros H; try (inversion H; auto; fail).
  destruct (Py.assoc key l); discriminate H.
Qed.

Lemma bind_raises {A B : Type} (c : result A) (k : A -> result B) (e : exn) :
  bind c k = Raise e -> c = Raise e \/ exists a, c = Ok a /\ k a = Raise e.
Proof.
  destruct c as [a | e']; simpl; intros H; [right; eauto | left; congruence].
Qed.

Lemma categorize_raises (items : list value) :
  forall rc sens e, categorize items rc sens = Raise e -> e = AttributeError.
Proof.
  induction items as [| data rest IH]; intros rc sens e H; simpl in H.
  - discriminate H.
  - apply bind_raises in H. destruct H as [H | (c & _ & H)].
    + exact (proj1 (get_raises _ _ _ _ H)).
    + destruct (classify c) as [r action]. exact (IH _ _ _ H).
Qed.


(** After element 0 has been read, only [AttributeError], [TypeError]
    and [UnicodeEncodeError] can be raised. *)
Lemma after_getitem_raises (report : value) (rest : list value) (e : exn) :
  extract_compliance_details (VList (report :: rest)) = Raise e ->
  e = AttributeError \/ e = TypeError \/ e = UnicodeEncodeError.
Proof.
  unfold extract_compliance_details. cbn [Py.getitem0 bind]. intros H.
  apply bind_raises in H. destruct H as [H | (severity & _ & H)].
  { unfold severity_of in H. apply bind_raises in H.
    destruct H as [H | (x & _ & H)]; left; exact (proj1 (get_raises _ _ _ _ H)). }
  apply bind_raises in H. destruct H as [H | (printed & _ & H)].
  { unfold Py.print in H. destruct (Py.has_surrogate _); inversion H. auto. }
  apply bind_raises in H. destruct H as [H | (low & _ & H)].
  { destruct severity; simpl in H; inversion H; auto. }
  apply bind_raises in H. destruct H as [H | (sd & _ & H)].
  { unfold sensitive_data_of in H. apply bind_raises in H.
    destruct H as [H | (x & _ & H)]; [left; exact (proj1 (get_raises _ _ _ _ H)) |].
    apply bind_raises in H.
    destruct H as [H | (y & _ & H)]; left; exact (proj1 (get_raises _ _ _ _ H)). }
  apply bind_raises in H. destruct H as [H | (items & _ & H)].
  { destruct sd; simpl in H; inversion H; auto. }
  apply bind_raises in H. destruct H as [H | ([rc sens] & _ & H)].
  { left. exact (categorize_raises _ _ _ _ H). }
  unfold compliance_dict in H.
  repeat (apply bind_raises in H;
          destruct H as [H | (? & _ & H)];
          [first [ left; exact (proj1 (get_raises _ _ _ _ H))
                 | destruct sd; simpl in H; inversion H; auto ] |]).
  discriminate H.
Qed.

Lemma chars_nil (s : string) : Py.chars s = [] -> s = EmptyString.
Proof.
  destruct s as [| a rest]; [reflexivity |].
  simpl. destruct rest as [| b rest']; [discriminate |].
  destruct (Py.is_cont b); [| discriminate].
  destruct (Py.chars (String b rest')); discriminate.
Qed.

(** X1. What the two lookup errors of the extractor mean: [IndexError]
    is raised exactly on the empty list and the empty string, [KeyError]
    exactly when the document is an object instead of a list. *)
Theorem lookup_errors_of_extraction (json_data : value) :
  (extract_compliance_details json_data = Raise IndexError
   <-> json_data = VList [] \/ json_data = VStr EmptyString)
  /\ (extract_compliance_details json_data = Raise KeyError
      <-> is_dict json_data = true).
Proof.
  assert (Hstr : forall s e,
             extract_compliance_details (VStr s) = Raise e ->
             (e = IndexError /\ s = EmptyString) \/ e = AttributeError).
  { intros s e H. unfold extract_compliance_details in H. cbn [Py.getitem0] in H.
    destruct (Py.chars s) as [| c cs] eqn:E; cbn [bind severity_of Py.get] in H.
    - inversion H. left. split; [reflexivity | exact (chars_nil _ E)].
    - inversion H. now right. }
  split; split.
  - intros H. destruct json_data as [| b | z | f | s | l | kvs];
      try (unfold extract_compliance_details in H; cbn [Py.getitem0 bind] in H;
           discriminate H).
    + right. destruct (Hstr _ _ H) as [[_ ->] | Hc]; [reflexivity | discriminate Hc].
    + destruct l as [| report rest]; [now left |].
      apply after_getitem_raises in H. destruct H as [H | [H | H]]; discriminate H.
  - intros [-> | ->]; reflexivity.
  - intros H. destruct json_data as [| b | z | f | s | l | kvs];
      try (unfold extract_compliance_details in H; cbn [Py.getitem0 bind] in H;
           discriminate H); [| | reflexivity].
    + destruct (Hstr _ _ H) as [[Hc _] | Hc]; discriminate Hc.
    + destruct l as [| report rest];
        [unfold extract_compliance_details in H; cbn [Py.getitem0 bind] in H;
         discriminate H |].
      apply after_getitem_raises in H. destruct H as [H | [H | H]]; discriminate H.
  - intros H. destruct json_data; try discriminate H. reflexivity.
Qed.








(** X3. Rendering never fails on a report the extractor has built: the
    pipeline ends normally exactly when extraction does, and when it fails
    it fails with the error of the extractor. *)
Theorem pipeline_fails_as_extraction (json_data : value) :
  (forall e, pipeline json_data = Raise e
             <-> extract_compliance_details json_data = Raise e)
  /\ ((exists ops, pipeline json_data = Ok ops)
      <-> exists cd, extract_compliance_details json_data = Ok cd).
Proof.
  unfold pipeline.
  destruct (extract_compliance_details json_data) as [cd | e0] eqn:E.
  - pose proof E as Hlit. apply extract_ok in Hlit.
    destruct Hlit as (report & s & items & cats & rc & _ & _ & _ & _ & _ & ->).
    cbn [bind]. unfold generate_pdf. rewrite render_fields_literal. cbn [bind].
    split.
    + intros e. split; intros H; discriminate H.
    + split; eauto.
  - cbn [bind]. split.
    + intros e. split; intros H; inversion H; reflexivity.
    + split; intros [x H]; discriminate H.
Qed.

(** X4. The assessment read backwards: a category is High only if it
    is one of the strings FINANCIAL, PERSONAL_HEALTH, SSN, and Medium only
    if it is one of EMAIL, PHONE, ADDRESS; so a category that is not a
    string (a number, null, a list, an object) is always Low. *)
Theorem classify_converse (category : value) :
  (fst (classify category) = High
   <-> exists c, category = VStr c /\ In c ["FINANCIAL"; "PERSONAL_HEALTH"; "SSN"])
  /\ (fst (classify category) = Medium
      <-> exists c, category = VStr c /\ In c ["EMAIL"; "PHONE"; "ADDRESS"])
  /\ (is_str category = false ->
      classify category = (Low, "Maintain current data protection measures")).
Proof.
  assert (Hin : forall lits,
             Py.in_strs category lits = true
             <-> exists c, category = VStr c /\ In c lits).
  { intros lits. unfold Py.in_strs. rewrite existsb_exists. split.
    - intros (x & Hx & Heq). destruct category; try discriminate Heq.
      simpl in Heq. apply String.eqb_eq in Heq. subst. eauto.
    - intros (c & -> & Hc). exists c. split; [exact Hc | apply String.eqb_refl]. }
  assert (Hdisj : forall c, In c ["FINANCIAL"; "PERSONAL_HEALTH"; "SSN"] ->
                            In c ["EMAIL"; "PHONE"; "ADDRESS"] -> False).
  { intros c H1 H2. simpl in H1, H2.
    repeat destruct H1 as [H1 | H1]; try contradiction; subst c;
      repeat destruct H2 as [H2 | H2]; try contradiction; discriminate H2. }
  unfold classify.
  destruct (Py.in_strs category ["FINANCIAL"; "PERSONAL_HEALTH"; "SSN"]) eqn:E1;
    [| destruct (Py.in_strs category ["EMAIL"; "PHONE"; "ADDRESS"]) eqn:E2];
    cbn [fst].
  - apply Hin in E1. split; [tauto |]. split.
    + split; [discriminate |].
      intros (c & -> & Hc). destruct E1 as (c' & Heq & Hc'). inversion Heq; subst c'.
      destruct (Hdisj c Hc' Hc).
    + intros Hs. destruct E1 as (c & -> & _). discriminate Hs.
  - apply Hin in E2. split; [| split].
    + split; [discriminate |]. intros H. apply Hin in H. congruence.
    + tauto.
    + intros Hs. destruct E2 as (c & -> & _). discriminate Hs.
  - split; [| split].
    + split; [discriminate |]. intros H. apply Hin in H. congruence.
    + split; [discriminate |]. intros H. apply Hin in H. congruence.
    + reflexivity.
Qed.

Lemma entries_at_tally (r : risk) (categories : list value) :
  entries_at r (map entry_of categories) = tally r categories.
Proof.
  unfold entries_at, tally. f_equal.
  induction categories as [| c cs IH]; [reflexivity |].
  cbn [map filter].
  assert (Heq : Py.eq_str (get_or (entry_of c) "risk" VNone) (risk_name r)
                = risk_eqb (fst (classify c)) r).
  { unfold entry_of. destruct (classify c) as [r' action]. cbn [fst].
    destruct r', r; reflexivity. }
  rewrite Heq. destruct (risk_eqb (fst (classify c)) r); cbn [length]; now rewrite IH.
Qed.

(** X5. The counts of a report agree with its listed sensitivities up to
    the severity seed: for exactly one tier the count is one more than the
    number of entries carrying that risk, for the two others it is that
    number; and every entry carries the visibility "Partially Visible" and
    one of the three risks. *)
Theorem counts_agree_with_entries (json_data cd : value) :
  extract_compliance_details json_data = Ok cd ->
  exists sens high medium low,
    field "Sensitivities" cd = Some (VList sens)
    /\ field "High Risk" cd = Some (VInt high)
    /\ field "Medium Risk" cd = Some (VInt medium)
    /\ field "Low Risk" cd = Some (VInt low)
    /\ ((high = 1 + entries_at High sens /\ medium = entries_at Medium sens
         /\ low = entries_at Low sens)
        \/ (high = entries_at High sens /\ medium = 1 + entries_at Medium sens
            /\ low = entries_at Low sens)
        \/ (high = entries_at High sens /\ medium = entries_at Medium sens
            /\ low = 1 + entries_at Low sens))
    /\ Forall (fun e => field "visibility" e = Some (VStr "Partially Visible")
                        /\ exists r, field "risk" e = Some (VStr (risk_name r))) sens.
Proof.
  intros H. apply extract_ok in H.
  destruct H as (report & s & items & cats & rc & _ & _ & _ & _ & Hcount & ->).
  exists (map entry_of cats), (count_of rc High), (count_of rc Medium), (count_of rc Low).
  do 4 (split; [reflexivity |]). split.
  - rewrite !entries_at_tally, !Hcount. unfold seed_risk_counts.
    destruct (String.eqb (Py.lower_str s) "high");
      [| destruct (String.eqb (Py.lower_str s) "medium")]; simpl; [left | right; left | right; right];
      repeat split; lia.
  - apply Forall_forall. intros e He. apply in_map_iff in He.
    destruct He as (c & <- & _). unfold entry_of.
    destruct (classify c) as [r action]. split; [reflexivity |]. exists r. reflexivity.
Qed.

(** X6. Floors and saturation of the composite metrics of a report: the
    scores are at least 50, 60, 70, 55 and 45; Data Protection is 100
    exactly from two High counts on, Access Control from two Medium counts
    on, Security Monitoring from three Low counts on, Privacy from three
    sensitivities on, Encryption from three High counts on; and Encryption
    never exceeds Data Protection. *)
Theorem metric_floors_and_saturation (json_data cd : value) :
  extract_compliance_details json_data = Ok cd ->
  exists high medium low sens dp ac sm pr en,
    field "High Risk" cd = Some (VInt high)
    /\ field "Medium Risk" cd = Some (VInt medium)
    /\ field "Low Risk" cd = Some (VInt low)
    /\ field "Sensitivities" cd = Some (VList sens)
    /\ field "Data Protection" cd = Some (VInt dp)
    /\ field "Access Control" cd = Some (VInt ac)
    /\ field "Security Monitoring" cd = Some (VInt sm)
    /\ field "Privacy" cd = Some (VInt pr)
    /\ field "Encryption" cd = Some (VInt en)
    /\ 50 <= dp /\ 60 <= ac /\ 70 <= sm /\ 55 <= pr /\ 45 <= en
    /\ (dp = 100 <-> 2 <= high)
    /\ (ac = 100 <-> 2 <= medium)
    /\ (sm = 100 <-> 3 <= low)
    /\ (pr = 100 <-> (3 <= length sens)%nat)
    /\ (en = 100 <-> 3 <= high)
    /\ en <= dp.
Proof.
  intros H. apply extract_ok in H.
  destruct H as (report & s & items & cats & rc & _ & _ & _ & Hcats & Hcount & ->).
  assert (Hnn : forall r, 0 <= count_of rc r).
  { intros r. rewrite Hcount.
    pose proof (proj1 (seed_counts (Py.lower_str s) r)).
    pose proof (tally_nonneg r cats). lia. }
  pose proof (Hnn High). pose proof (Hnn Medium). pose proof (Hnn Low).
  pose proof (forall2_length _ _ _ Hcats) as Hlen.
  exists (count_of rc High), (count_of rc Medium), (count_of rc Low), (map entry_of cats).
  do 5 eexists.
  do 9 (split; [reflexivity |]).
  rewrite length_map, <- Hlen.
  repeat split; lia.
Qed.

Lemma draw_items_outcome (kvs : list (string * value)) :
  forall canvas y,
    if forallb drawable kvs
    then exists out, draw_items kvs canvas y = Ok out
    else draw_items kvs canvas y = Raise TypeError.
Proof.
  induction kvs as [| [key val] rest IH]; intros canvas y.
  - simpl. eauto.
  - cbn [forallb draw_items]. unfold drawable at 1, plain_key. cbn [fst snd].
    destruct (String.eqb key "Sensitivities"); cbn [negb orb].
    + unfold iterable. destruct val; cbn [Py.iter bind andb]; try reflexivity;
        match goal with
        | |- context [draw_sensitivities ?es ?c ?yy] =>
            destruct (draw_sensitivities es c yy) as [cv yv]
        end; apply IH.
    + cbn [andb]. apply IH.
Qed.

(** X7. What the renderer accepts: it ends normally exactly on a dict
    in which every value under the key "Sensitivities" can be iterated; on
    a value that is not a dict it raises [AttributeError], and on a dict
    with a "Sensitivities" value that cannot be iterated (null, a number,
    a boolean) it raises [TypeError]. *)
Theorem rendering_succeeds_iff (compliance_details : value) :
  ((exists ops, generate_pdf compliance_details = Ok ops)
   <-> exists kvs, compliance_details = VDict kvs /\ forallb drawable kvs = true)
  /\ (generate_pdf compliance_details = Raise AttributeError
      <-> is_dict compliance_details = false)
  /\ (generate_pdf compliance_details = Raise TypeError
      <-> exists kvs, compliance_details = VDict kvs /\ forallb drawable kvs = false).
Proof.
  unfold generate_pdf, render_fields.
  destruct compliance_details as [| b | z | f | s | l | kvs];
    try (cbn [bind is_dict]; split; [| split]; split;
         try reflexivity; try discriminate;
         intros (x & H); try discriminate H; destruct H as [H _]; discriminate H).
  match goal with |- context [draw_items kvs ?c ?y] =>
    pose proof (draw_items_outcome kvs c y) as Hout end.
  destruct (forallb drawable kvs) eqn:E.
  - destruct Hout as [out Hout]. rewrite Hout. cbn [bind is_dict].
    split; [| split]; split; try discriminate; eauto.
    intros (kvs' & Heq & H). inversion Heq; subst kvs'. congruence.
  - rewrite Hout. cbn [bind is_dict].
    split; [| split]; split; try discriminate; eauto.
    + intros (x & H). discriminate H.
    + intros (kvs' & Heq & H). inversion Heq; subst kvs'. congruence.
Qed.

Lemma rows_from_lines (x y : Z) (texts : list string) :
  x = 100 \/ x = 120 -> rows_from y (lines_at x y texts).
Proof.
  intros Hx. revert y. induction texts as [| t rest IH]; intros y k op Hk.
  - destruct k; discriminate Hk.
  - destruct k as [| k]; cbn [lines_at nth_error] in Hk.
    + inversion Hk. exists x, t. split; [do 2 f_equal; lia | exact Hx].
    + destruct (IH _ _ _ Hk) as (x' & t' & -> & Hx').
      exists x', t'. split; [f_equal; lia | exact Hx'].
Qed.

Lemma rows_from_app (y : Z) (rows more : list canvas_op) :
  rows_from y rows ->
  rows_from (y - 20 * Z.of_nat (length rows)) more ->
  rows_from y (rows ++ more).
Proof.
  intros Hrows Hmore k op Hk.
  destruct (Nat.lt_ge_cases k (length rows)) as [Hlt | Hge].
  - rewrite nth_error_app1 in Hk by exact Hlt. exact (Hrows _ _ Hk).
  - rewrite nth_error_app2 in Hk by exact Hge.
    destruct (Hmore _ _ Hk) as (x & t & -> & Hx).
    exists x, t. split; [f_equal; lia | exact Hx].
Qed.

(** What the loop of [generate_pdf] adds to the canvas, for any dict. *)
Lemma draw_items_rows (kvs : list (string * value)) :
  forall canvas y canvas' y',
    draw_items kvs canvas y = Ok (canvas', y') ->
    exists more,
      canvas' = (canvas ++ more)%list
      /\ rows_from y more
      /\ y' = y - 20 * Z.of_nat (length more)
      /\ ~ In ShowPage more.
Proof.
  induction kvs as [| [key val] rest IH]; intros canvas y canvas' y' H.
  - simpl in H. inversion H; subst. exists []. rewrite app_nil_r.
    repeat split; [intros k op Hk; destruct k; discriminate Hk | simpl; lia | tauto].
  - cbn [draw_items] in H. destruct (String.eqb key "Sensitivities").
    + bind_as H entries Hiter. rewrite draw_sensitivities_lines in H.
      apply IH in H. destruct H as (more & -> & Hrows & -> & Hno).
      exists (DrawString 100 y (key ++ ":") :: lines_at 120 (y - 20) (entry_texts entries)
              ++ more)%list.
      split; [now rewrite <- !app_assoc |]. split; [| split].
      * change (DrawString 100 y (key ++ ":")
                :: lines_at 120 (y - 20) (entry_texts entries) ++ more)%list
          with (lines_at 100 y [(key ++ ":")%string]
                ++ (lines_at 120 (y - 20) (entry_texts entries) ++ more))%list.
        apply rows_from_app; [apply rows_from_lines; auto |].
        cbn [lines_at length].
        replace (y - 20 * Z.of_nat 1) with (y - 20) by lia.
        apply rows_from_app; [apply rows_from_lines; auto |].
        rewrite lines_at_length. unfold entry_texts in *. rewrite length_map in *.
        exact Hrows.
      * cbn [length]. rewrite length_app, lines_at_length.
        unfold entry_texts. rewrite length_map. lia.
      * intros [Hin | Hin]; [discriminate Hin |].
        apply in_app_or in Hin. destruct Hin as [Hin | Hin];
          [exact (lines_at_no_page_break _ _ _ Hin) | exact (Hno Hin)].
    + apply IH in H. destruct H as (more & -> & Hrows & -> & Hno).
      exists (DrawString 100 y (key ++ ": " ++ Py.str val) :: more).
      split; [now rewrite <- app_assoc |]. split; [| split].
      * change (DrawString 100 y (key ++ ": " ++ Py.str val) :: more)
          with (lines_at 100 y [(key ++ ": " ++ Py.str val)%string] ++ more)%list.
        apply rows_from_app; [apply rows_from_lines; auto |].
        cbn [lines_at length].
        replace (y - 20 * Z.of_nat 1) with (y - 20) by lia. exact Hrows.
      * cbn [length]. lia.
      * intros [Hin | Hin]; [discriminate Hin | exact (Hno Hin)].
Qed.

(** X8. Whatever dict is rendered, the drawing is the three opening
    calls, then lines on consecutive rows, the k-th at height 700 - 20 k
    and at margin 100 or 120, then the closing call, with no page break;
    so no two lines are ever drawn at the same height. *)
Theorem rendering_rows (compliance_details : value) (ops : list canvas_op) :
  generate_pdf compliance_details = Ok ops ->
  exists rows,
    ops = (preamble ++ rows ++ [Save])%list
    /\ rows_from 700 rows
    /\ ~ In ShowPage ops
    /\ (forall i j x1 y1 t1 x2 y2 t2,
          nth_error rows i = Some (DrawString x1 y1 t1) ->
          nth_error rows j = Some (DrawString x2 y2 t2) ->
          i <> j -> y1 <> y2).
Proof.
  unfold generate_pdf, render_fields. intros H.
  destruct compliance_details as [| b | z | f | s | l | kvs]; try discriminate H.
  bind_as H drawn Hdraw. destruct drawn as [canvas y'].
  change ((([SetFont "Helvetica" 12] ++ [DrawString 100 750 "Compliance Report"])
           ++ [DrawString 100 730 (repeat_str "-" 50)])%list) with preamble in Hdraw.
  apply draw_items_rows in Hdraw. destruct Hdraw as (rows & -> & Hrows & _ & Hno).
  inversion H; subst ops. cbn [fst].
  exists rows. split; [unfold preamble; reflexivity |]. split; [exact Hrows |]. split.
  - intros Hin. do 3 (destruct Hin as [Hin | Hin]; [discriminate Hin |]).
    apply in_app_or in Hin. destruct Hin as [Hin | Hin]; [exact (Hno Hin) |].
    simpl in Hin. destruct Hin as [Hin | []]. discriminate Hin.
  - intros i j x1 y1 t1 x2 y2 t2 Hi Hj Hij Hy.
    destruct (Hrows _ _ Hi) as (xi & ti & Hi' & _).
    destruct (Hrows _ _ Hj) as (xj & tj & Hj' & _).
    assert (Hy1 : y1 = 700 - 20 * Z.of_nat i) by congruence.
    assert (Hy2 : y2 = 700 - 20 * Z.of_nat j) by congruence.
    lia.
Qed.

(** ** Properties of the request handlers *)

Lemma str_app_nil (s : string) : (s ++ "")%string = s.
Proof.
  induction s as [| a s IH]; simpl; [reflexivity | now rewrite IH].
Qed.

Lemma substring_split (n : nat) (s : string) :
  (String.substring 0 n s ++ String.substring n (String.length s - n) s)%string = s.
Proof.
  revert s. induction n as [| n IH]; intros s.
  - destruct s as [| a s]; [reflexivity |].
    cbn [String.substring append]. rewrite Nat.sub_0_r.
    change (String.substring 0 (String.length (String a s)) (String a s) = String a s).
    clear. generalize (String a s). intros t.
    induction t as [| b t IHt]; [reflexivity |]. simpl. now rewrite IHt.
  - destruct s as [| a s]; [reflexivity |].
    cbn [String.substring append String.length Nat.sub]. now rewrite IH.
Qed.

Lemma slice_split (p : string) (d : Z) :
  0 <= d ->
  (PyMore.slice p 0 d ++ PyMore.slice p d (Z.of_nat (String.length p)))%string = p.
Proof.
  intros Hd. unfold PyMore.slice.
  replace (Z.to_nat 0) with 0%nat by reflexivity.
  replace (Z.to_nat (d - 0)) with (Z.to_nat d) by (f_equal; lia).
  replace (Z.to_nat (Z.of_nat (String.length p) - d))
    with (String.length p - Z.to_nat d)%nat by lia.
  apply substring_split.
Qed.

Lemma skip_leading_dots_concat (n : nat) (p : string) :
  forall i d root ext,
    0 <= d ->
    PyMore.skip_leading_dots n p i d = (root, ext) ->
    (root ++ ext)%string = p.
Proof.
  induction n as [| n IH]; intros i d root ext Hd H; simpl in H.
  - inversion H. apply str_app_nil.
  - destruct (negb (String.eqb (PyMore.slice p i (i + 1)) ".")).
    + inversion H. now apply slice_split.
    + exact (IH _ _ _ _ Hd H).
Qed.

Lemma rfind_from_lower (c : ascii) (s : string) :
  forall i found, -1 <= found -> 0 <= i -> -1 <= PyMore.rfind_from c s i found.
Proof.
  induction s as [| a s IH]; intros i found Hf Hi; simpl; [exact Hf |].
  apply IH; [destruct (Ascii.eqb a c); lia | lia].
Qed.

(** [os.path.splitext] cuts its argument in two. *)
Lemma splitext_concat (p root ext : string) :
  PyMore.splitext p = (root, ext) -> (root ++ ext)%string = p.
Proof.
  unfold PyMore.splitext. intros H.
  destruct (PyMore.rfind "." p >? PyMore.rfind "/" p) eqn:E.
  - apply Z.gtb_lt in E.
    assert (-1 <= PyMore.rfind "/" p) by (apply rfind_from_lower; lia).
    eapply skip_leading_dots_concat; [| exact H]. lia.
  - inversion H. apply str_app_nil.
Qed.

(** X9. [upload_file] stores a file only when its name is a root
    followed by an extension whose lower case is ".csv"; the file then
    goes, with its content unchanged and under its own name, into the
    bucket "hackathonwin", and nothing else is stored.  Every request
    answered with a body (the 400 replies) stores nothing. *)
Theorem upload_stores_csv_only (w : Web.World) (files : list (string * Web.FileStorage))
    (r : Web.response) (ups : list Web.upload) :
  Web.upload_file w files = (r, ups) ->
  (ups = []
   \/ exists field file root ext,
        find (fun kv => String.eqb (fst kv) "file") files = Some (field, file)
        /\ ups = [Web.mkUpload (Web.FileBody (Web.content file)) "hackathonwin"
                    (Web.filename file)]
        /\ Web.filename file = (root ++ ext)%string
        /\ Py.lower_str ext = ".csv")
  /\ (forall body status, r = Web.Reply body status -> status = 400 /\ ups = []).
Proof.
  unfold Web.upload_file. intros H.
  destruct (find _ files) as [[field file] |] eqn:Ef.
  2:{ inversion H; subst. split; [now left |]. intros b st Hr. inversion Hr. auto. }
  destruct (String.eqb (Web.filename file) "").
  { inversion H; subst. split; [now left |]. intros b st Hr. inversion Hr. auto. }
  destruct (PyMore.splitext (Web.filename file)) as [root ext] eqn:Es.
  destruct (String.eqb (Py.lower_str ext) ".csv") eqn:El; cbn [negb] in H.
  2:{ inversion H; subst. split; [now left |]. intros b st Hr. inversion Hr. auto. }
  apply String.eqb_eq in El. apply splitext_concat in Es.
  destruct (Web.upload_fileobj w _ _ _).
  - destruct (Web.url_for w "buffer"); inversion H; subst;
      (split; [right; exists field, file, root, ext; auto | intros b st Hr; discriminate Hr]).
  - inversion H; subst. split; [now left |]. intros b st Hr. discriminate Hr.
Qed.

Lemma contains_app (c : ascii) (a b : string) :
  Py.contains c (a ++ b) = Py.contains c a || Py.contains c b.
Proof.
  induction a as [| x a IH]; simpl; [reflexivity |].
  rewrite IH. now rewrite orb_assoc.
Qed.

Lemma rfind_from_absent (c : ascii) (s : string) :
  Py.contains c s = false ->
  forall i found, PyMore.rfind_from c s i found = found.
Proof.
  induction s as [| a s IH]; intros Hc i found; simpl in *; [reflexivity |].
  apply orb_false_iff in Hc. destruct Hc as [Ha Hs].
  rewrite Ha. now apply IH.
Qed.

Lemma rfind_from_last (c : ascii) (s1 s2 : string) :
  Py.contains c s2 = false ->
  forall i found,
    PyMore.rfind_from c (s1 ++ String c s2) i found = i + Z.of_nat (String.length s1).
Proof.
  intros Hc. induction s1 as [| a s1 IH]; intros i found.
  - cbn [append PyMore.rfind_from String.length]. rewrite Ascii.eqb_refl.
    rewrite (rfind_from_absent _ _ Hc). simpl. lia.
  - cbn [append PyMore.rfind_from String.length]. rewrite IH. lia.
Qed.

Lemma substring_app_left (a b : string) :
  String.substring 0 (String.length a) (a ++ b) = a.
Proof.
  induction a as [| x a IH]; simpl.
  - destruct b; reflexivity.
  - now rewrite IH.
Qed.

Lemma substring_app_right (a b : string) :
  String.substring (String.length a) (String.length b) (a ++ b) = b.
Proof.
  induction a as [| x a IH]; simpl; [| exact IH].
  clear. induction b as [| y b IH]; [reflexivity |]. simpl. now rewrite IH.
Qed.

Lemma length_app_str (a b : string) :
  String.length (a ++ b) = (String.length a + String.length b)%nat.
Proof.
  induction a as [| x a IH]; simpl; [reflexivity | now rewrite IH].
Qed.

Lemma lower_ascii_dot (a : ascii) : Py.lower_ascii a = "."%char -> a = "."%char.
Proof.
  destruct a as [[] [] [] [] [] [] [] []]; vm_compute; intros H;
    first [reflexivity | discriminate H].
Qed.

Lemma lower_ascii_letter (a : ascii) :
  Py.lower_ascii a = "c"%char \/ Py.lower_ascii a = "s"%char
  \/ Py.lower_ascii a = "v"%char ->
  Ascii.eqb a "."%char = false /\ Ascii.eqb a "/"%char = false.
Proof.
  destruct a as [[] [] [] [] [] [] [] []]; vm_compute; intros [H | [H | H]];
    first [split; reflexivity | discriminate H].
Qed.

(** An extension whose lower case is ".csv" is a dot followed by three
    characters that are neither dots nor slashes. *)
Lemma csv_extension_shape (ext : string) :
  Py.lower_str ext = ".csv" ->
  exists e, ext = String "."%char e
            /\ String.length e = 3%nat
            /\ Py.contains "."%char e = false
            /\ Py.contains "/"%char e = false.
Proof.
  intros H.
  destruct ext as [| a [| b [| c [| d [| x rest]]]]]; try discriminate H.
  cbn [Py.lower_str] in H. injection H as Ha Hb Hc Hd.
  apply lower_ascii_dot in Ha. subst a.
  destruct (lower_ascii_letter b (or_introl Hb)) as [Hb1 Hb2].
  destruct (lower_ascii_letter c (or_intror (or_introl Hc))) as [Hc1 Hc2].
  destruct (lower_ascii_letter d (or_intror (or_intror Hd))) as [Hd1 Hd2].
  exists (String b (String c (String d ""))).
  split; [reflexivity |]. split; [reflexivity |].
  cbn [Py.contains]. rewrite Hb1, Hc1, Hd1, Hb2, Hc2, Hd2. split; reflexivity.
Qed.

(** [os.path.splitext] on a plain name with a csv extension. *)
Lemma splitext_plain_csv (stem ext : string) :
  stem <> EmptyString ->
  Py.contains "."%char stem = false ->
  Py.contains "/"%char stem = false ->
  Py.lower_str ext = ".csv" ->
  PyMore.splitext (stem ++ ext) = (stem, ext).
Proof.
  intros Hne Hdot Hsep Hext.
  destruct (csv_extension_shape ext Hext) as (e & -> & Hlen & Hedot & Hesep).
  unfold PyMore.splitext, PyMore.rfind.
  rewrite (rfind_from_last "."%char stem e Hedot).
  rewrite rfind_from_absent
    by (rewrite contains_app, Hsep; cbn [Py.contains]; rewrite Hesep; reflexivity).
  destruct stem as [| a stem]; [contradiction |].
  replace (0 + Z.of_nat (String.length (String a stem)) >? -1) with true
    by (symmetry; apply Z.gtb_lt; lia).
  replace (Z.to_nat (0 + Z.of_nat (String.length (String a stem)) - (-1 + 1)))
    with (S (String.length stem)) by (cbn [String.length]; lia).
  cbn [PyMore.skip_leading_dots].
  assert (Hfirst : String.eqb (PyMore.slice (String a stem ++ String "." e) (-1 + 1)
                                 (-1 + 1 + 1)) "." = false).
  { vm_compute PyMore.slice. unfold PyMore.slice. cbn.
    cbn [Py.contains] in Hdot. apply orb_false_iff in Hdot. destruct Hdot as [Ha _].
    destruct stem; cbn; rewrite Ha; reflexivity. }
  rewrite Hfirst. cbn [negb]. f_equal.
  - unfold PyMore.slice.
    replace (Z.to_nat (0 + Z.of_nat (String.length (String a stem)) - 0))
      with (String.length (String a stem)) by lia.
    apply substring_app_left.
  - unfold PyMore.slice.
    replace (Z.to_nat (0 + Z.of_nat (String.length (String a stem))))
      with (String.length (String a stem)) by lia.
    replace (Z.to_nat (Z.of_nat (String.length (String a stem ++ String "." e))
                       - (0 + Z.of_nat (String.length (String a stem)))))
      with (String.length (String "." e)) by (rewrite length_app_str; lia).
    apply substring_app_right.
Qed.

Lemma str_app_not_empty (a b : string) :
  a <> EmptyString -> String.eqb (a ++ b) EmptyString = false.
Proof.
  destruct a; [contradiction | reflexivity].
Qed.

(** X10. A file field named [file] whose name is a non-empty stem
    without dots or slashes followed by an extension whose lower case is
    ".csv" is accepted: when the store takes it, it is stored under its
    name in "hackathonwin" and the browser is sent to the buffer page. *)
Theorem upload_accepts_plain_csv (w : Web.World) (files : list (string * Web.FileStorage))
    (field : string) (file : Web.FileStorage) (stem ext location : string) :
  find (fun kv => String.eqb (fst kv) "file") files = Some (field, file) ->
  Web.filename file = (stem ++ ext)%string ->
  stem <> EmptyString ->
  Py.contains "."%char stem = false ->
  Py.contains "/"%char stem = false ->
  Py.lower_str ext = ".csv" ->
  Web.upload_fileobj w (Web.FileBody (Web.content file)) "hackathonwin"
    (Web.filename file) = true ->
  Web.url_for w "buffer" = Some location ->
  Web.upload_file w files
  = (Web.Redirect location,
     [Web.mkUpload (Web.FileBody (Web.content file)) "hackathonwin" (Web.filename file)]).
Proof.
  intros Hfind Hname Hne Hdot Hsep Hext Hup Hurl.
  unfold Web.upload_file. rewrite Hfind.
  rewrite Hname at 1. rewrite (str_app_not_empty _ _ Hne).
  rewrite Hname at 1. rewrite (splitext_plain_csv _ _ Hne Hdot Hsep Hext).
  rewrite Hext. cbn [String.eqb Ascii.eqb Bool.eqb negb].
  unfold Web.CSV_BUCKET. rewrite Hup, Hurl. reflexivity.
Qed.

Lemma split_on_not_nil (sep : ascii) (s : string) : PyMore.split_on sep s <> [].
Proof.
  destruct s as [| a s]; simpl; [discriminate |].
  destruct (Ascii.eqb a sep); [discriminate |].
  destruct (PyMore.split_on sep s); discriminate.
Qed.

Lemma split_on_parts (sep : ascii) (s : string) :
  Forall (fun part => Py.contains sep part = false) (PyMore.split_on sep s).
Proof.
  induction s as [| a s IH]; simpl.
  - constructor; [reflexivity | constructor].
  - destruct (Ascii.eqb a sep) eqn:E.
    + constructor; [reflexivity | exact IH].
    + destruct (PyMore.split_on sep s) as [| h t].
      * constructor; [simpl; now rewrite E | constructor].
      * inversion IH; subst. constructor; [simpl; now rewrite E | assumption].
Qed.

Lemma last_segment_no_sep (sep : ascii) (s : string) :
  Py.contains sep (last (PyMore.split_on sep s) EmptyString) = false.
Proof.
  pose proof (split_on_parts sep s) as H.
  pose proof (split_on_not_nil sep s) as Hne.
  induction H as [| x l Hx Hl IH]; [contradiction |].
  destruct l as [| y l']; [exact Hx |].
  change (last (x :: y :: l') EmptyString) with (last (y :: l') EmptyString).
  apply IH. discriminate.
Qed.

Lemma replace_from_keeps_absent (c : ascii) (old new : string) :
  Py.contains c new = false ->
  forall s skip,
    Py.contains c s = false ->
    Py.contains c (PyMore.replace_from skip old new s) = false.
Proof.
  intros Hnew. induction s as [| a s IH]; intros skip Hs; [reflexivity |].
  simpl in Hs. apply orb_false_iff in Hs. destruct Hs as [Ha Hs].
  cbn [PyMore.replace_from]. destruct skip as [| k]; [| now apply IH].
  destruct (String.prefix old (String a s)).
  - rewrite contains_app, Hnew. now apply IH.
  - simpl. rewrite Ha. now apply IH.
Qed.

Lemma pdf_name_no_slash (json_file_key : value) (name : string) :
  Web.pdf_name json_file_key = Ok name -> Py.contains "/"%char name = false.
Proof.
  destruct json_file_key; try discriminate. simpl. intros H. inversion H.
  apply replace_from_keeps_absent; [reflexivity | apply last_segment_no_sep].
Qed.

(** Where a fetched document comes from. *)
Lemma fetch_sound (w : Web.World) (json_data json_file_key : value) :
  Web.fetch_json_from_s3 w = (json_data, json_file_key) ->
  json_data <> VNone ->
  exists response contents first body,
    Web.list_objects_v2 w "macie-job-exports" "macie-findings/new.json" = Some response
    /\ Py.assoc "Contents" response = Some contents
    /\ Py.getitem0 contents = Ok first
    /\ PyMore.getitem first "Key" = Ok json_file_key
    /\ Web.get_object_body w "macie-job-exports" json_file_key = Some body
    /\ Web.json_loads w body = Some json_data.
Proof.
  unfold Web.fetch_json_from_s3, Web.fetch_json_try, Web.JSON_BUCKET, Web.JSON_PREFIX.
  intros H Hne.
  destruct (Web.list_objects_v2 w _ _) as [response |] eqn:El;
    [| inversion H; subst; contradiction].
  cbn [PyMore.getitem] in H.
  destruct (Py.assoc "Contents" response) as [contents |] eqn:Ec;
    [| inversion H; subst; contradiction].
  destruct (negb (PyMore.truthy contents));
    [inversion H; subst; contradiction |].
  cbn [bind] in H.
  destruct (Py.getitem0 contents) as [first | e1] eqn:E0;
    [| inversion H; subst; contradiction].
  cbn [bind] in H.
  destruct (PyMore.getitem first "Key") as [key | e2] eqn:Ek;
    [| inversion H; subst; contradiction].
  cbn [Web.attempt] in H.
  destruct (Web.get_object_body w _ key) as [body |] eqn:Eb;
    [| inversion H; subst; contradiction].
  destruct (Web.json_loads w body) as [parsed |] eqn:Ej;
    [| inversion H; subst; contradiction].
  inversion H; subst. exists response, contents, first, body. auto 10.
Qed.

(** The steps of [result] between the fetch and the upload. *)
Lemma result_prepared (w : Web.World) (json_data json_file_key : value) :
  Web.fetch_json_from_s3 w = (json_data, json_file_key) ->
  json_data <> VNone ->
  (exists e, extract_compliance_details json_data = Raise e
             /\ Web.result w = (Web.error_reply, []))
  \/ (exists cd, extract_compliance_details json_data = Ok cd
                 /\ Web.pdf_name json_file_key = Raise AttributeError
                 /\ Web.result w = (Web.error_reply, []))
  \/ (exists cd name canvas,
        extract_compliance_details json_data = Ok cd
        /\ Web.pdf_name json_file_key = Ok name
        /\ generate_pdf cd = Ok canvas
        /\ Web.result w
           = if Web.upload_fileobj w (Web.PdfBody canvas) "hackathonwin" name then
               let done := [Web.mkUpload (Web.PdfBody canvas) "hackathonwin" name] in
               match Web.generate_presigned_url w "hackathonwin" name 3600 with
               | None => (Web.error_reply, done)
               | Some pdf_url =>
                   match Web.render_template w "result.html"
                           [("compliance", cd); ("file_url", VStr pdf_url)] with
                   | None => (Web.error_reply, done)
                   | Some page => (Web.Reply page 200, done)
                   end
               end
             else (Web.error_reply, [])).
Proof.
  intros Hf Hne. unfold Web.result. rewrite Hf.
  destruct (extract_compliance_details json_data) as [cd | e] eqn:E.
  - pose proof E as Hlit. apply extract_ok in Hlit.
    destruct Hlit as (report & s & items & cats & rc & _ & _ & _ & _ & _ & Hcd).
    assert (Hpdf : exists canvas, generate_pdf cd = Ok canvas).
    { subst cd. unfold generate_pdf. rewrite render_fields_literal. cbn [bind]. eauto. }
    destruct Hpdf as [canvas Hpdf].
    destruct (Web.pdf_name json_file_key) as [name | e] eqn:En.
    + right; right. exists cd, name, canvas.
      do 3 (split; [reflexivity || assumption |]).
      cbn [bind]. rewrite Hpdf. cbn [bind Web.attempt]. unfold Web.PDF_BUCKET.
      destruct json_data; try reflexivity. contradiction.
    + right; left. exists cd.
      assert (e = AttributeError) by (destruct json_file_key; inversion En; reflexivity).
      subst e. do 2 (split; [reflexivity |]).
      cbn [bind Web.attempt]. destruct json_data; try reflexivity. contradiction.
  - left. exists e. split; [reflexivity |].
    cbn [bind Web.attempt]. destruct json_data; try reflexivity. contradiction.
Qed.

(** X11. What [result] writes to the store: nothing, or exactly one
    object, which is the rendering of the report extracted from the parse
    of the object found under the first listed key of "macie-job-exports",
    written to "hackathonwin" under the name derived from that key, a name
    that never contains a slash. *)
Theorem result_uploads (w : Web.World) (r : Web.response) (ups : list Web.upload) :
  Web.result w = (r, ups) ->
  ups = []
  \/ exists response contents first key body json_data cd name canvas,
       Web.list_objects_v2 w "macie-job-exports" "macie-findings/new.json" = Some response
       /\ Py.assoc "Contents" response = Some contents
       /\ Py.getitem0 contents = Ok first
       /\ PyMore.getitem first "Key" = Ok key
       /\ Web.get_object_body w "macie-job-exports" key = Some body
       /\ Web.json_loads w body = Some json_data
       /\ extract_compliance_details json_data = Ok cd
       /\ generate_pdf cd = Ok canvas
       /\ Web.pdf_name key = Ok name
       /\ Py.contains "/"%char name = false
       /\ ups = [Web.mkUpload (Web.PdfBody canvas) "hackathonwin" name].
Proof.
  intros H.
  destruct (Web.fetch_json_from_s3 w) as [json_data key] eqn:Ef.
  assert (Hcase : json_data = VNone \/ json_data <> VNone)
    by (destruct json_data; [now left | right; discriminate ..]).
  destruct Hcase as [-> | Hne].
  { unfold Web.result in H. rewrite Ef in H. inversion H. now left. }
  destruct (result_prepared w _ _ Ef Hne)
    as [(e & _ & Hr) | [(cd & _ & _ & Hr) | (cd & name & canvas & Hcd & Hname & Hpdf & Hr)]];
    rewrite Hr in H; try (inversion H; now left).
  destruct (fetch_sound w _ _ Ef Hne)
    as (response & contents & first & body & H1 & H2 & H3 & H4 & H5 & H6).
  destruct (Web.upload_fileobj w _ _ _); [| inversion H; now left].
  right. exists response, contents, first, key, body, json_data, cd, name, canvas.
  repeat (split; [assumption |]).
  split; [exact (pdf_name_no_slash _ _ Hname) |].
  cbv zeta in H.
  destruct (Web.generate_presigned_url w _ _ _);
    [destruct (Web.render_template w _ _) |]; inversion H; reflexivity.
Qed.


Lemma split_on_single (sep : ascii) (s : string) :
  Py.contains sep s = false -> PyMore.split_on sep s = [s].
Proof.
  induction s as [| a s IH]; intros H; [reflexivity |].
  simpl in H. apply orb_false_iff in H. destruct H as [Ha Hs].
  simpl. rewrite Ha, (IH Hs). reflexivity.
Qed.

Lemma split_on_two (sep : ascii) (a b : string) :
  exists h1 h2 t, PyMore.split_on sep (a ++ String sep b) = h1 :: h2 :: t.
Proof.
  induction a as [| x a IH].
  - cbn [append PyMore.split_on]. rewrite Ascii.eqb_refl.
    destruct (PyMore.split_on sep b) as [| h t] eqn:E;
      [destruct (split_on_not_nil _ _ E) | eauto].
  - destruct IH as (h1 & h2 & t & IH). cbn [append PyMore.split_on]. rewrite IH.
    destruct (Ascii.eqb x sep); eauto.
Qed.

Lemma last_split_app (sep : ascii) (a b d : string) :
  last (PyMore.split_on sep (a ++ String sep b)) d = last (PyMore.split_on sep b) d.
Proof.
  induction a as [| x a IH].
  - cbn [append PyMore.split_on]. rewrite Ascii.eqb_refl.
    destruct (PyMore.split_on sep b) as [| h t] eqn:E;
      [destruct (split_on_not_nil _ _ E) | reflexivity].
  - cbn [append PyMore.split_on].
    destruct (split_on_two sep a b) as (h1 & h2 & t & E).
    rewrite E in *. destruct (Ascii.eqb x sep); exact IH.
Qed.

Lemma replace_json_suffix (stem : string) :
  Py.contains "."%char stem = false ->
  PyMore.replace ".json" ".pdf" (stem ++ ".json") = (stem ++ ".pdf")%string.
Proof.
  unfold PyMore.replace. induction stem as [| a stem IH]; intros H; [reflexivity |].
  simpl in H. apply orb_false_iff in H. destruct H as [Ha Hs].
  cbn [append PyMore.replace_from String.prefix].
  destruct (ascii_dec "." a) as [<- | _]; [discriminate Ha |].
  now rewrite (IH Hs).
Qed.

(** X13. The name of the PDF for a key that ends in a last segment
    "<stem>.json", the stem having no dot and no slash, is "<stem>.pdf",
    whatever directories precede it. *)
Theorem pdf_name_of_json_key (dir stem : string) :
  Py.contains "/"%char stem = false ->
  Py.contains "."%char stem = false ->
  Web.pdf_name (VStr (dir ++ String "/" (stem ++ ".json"))) = Ok (stem ++ ".pdf")%string
  /\ Web.pdf_name (VStr (stem ++ ".json")) = Ok (stem ++ ".pdf")%string.
Proof.
  intros Hsep Hdot.
  assert (Hseg : PyMore.split_on "/" (stem ++ ".json") = [(stem ++ ".json")%string]).
  { apply split_on_single. rewrite contains_app, Hsep. reflexivity. }
  unfold Web.pdf_name. split.
  - rewrite last_split_app, Hseg. cbn [last]. now rewrite replace_json_suffix.
  - rewrite Hseg. cbn [last]. now rewrite replace_json_suffix.
Qed.

(** ** Properties of the job trigger *)

(** X14. The trigger reports what it did: it answers 200 exactly when
    it has created one job, a one-time job named after the clock, scanning
    the single bucket named in the first record of the event for the
    account STS returned; in every other case (a field of the first record
    missing, its object key included, a printed value that cannot be
    encoded, STS or Macie failing) it answers 500
    with a body that starts with "Error: " and has created no job. *)
Theorem trigger_outcome (c : Trigger.Cloud) (event resp : value) (jobs : list value) :
  Trigger.lambda_handler c event = (resp, jobs) ->
  (field "statusCode" resp = Some (VInt 200)
   /\ exists bucket_name file_name caller account_id response,
        Trigger.first_record event = Ok (bucket_name, file_name)
        /\ Trigger.get_caller_identity c = Some caller
        /\ Py.assoc "Account" caller = Some account_id
        /\ jobs = [Trigger.job_request
                     ("MacieScanJob_" ++ Py.str_of_Z (Trigger.time_now c))
                     account_id bucket_name (Trigger.uuid4 c)]
        /\ field "jobType" (hd VNone jobs) = Some (VStr "ONE_TIME")
        /\ Trigger.create_classification_job c (hd VNone jobs) = Some response)
  \/ (field "statusCode" resp = Some (VInt 500)
      /\ (exists text, field "body" resp = Some (VStr ("Error: " ++ text)))
      /\ jobs = []).
Proof.
  unfold Trigger.lambda_handler. intros H.
  assert (Hfail : forall (P : Prop),
             (Trigger.failed c event, @nil value) = (resp, jobs) ->
             P \/ (field "statusCode" resp = Some (VInt 500)
                   /\ (exists text, field "body" resp = Some (VStr ("Error: " ++ text)))
                   /\ jobs = [])).
  { intros P Hf. inversion Hf; subst. right.
    split; [reflexivity | split; [eexists; reflexivity | reflexivity]]. }
  destruct (Trigger.first_record event) as [[bucket_name file_name] | e] eqn:Er;
    [| exact (Hfail _ H)].
  destruct (Py.print _) as [printed | e]; [| exact (Hfail _ H)].
  destruct (Trigger.get_caller_identity c) as [caller |] eqn:Ec; [| exact (Hfail _ H)].
  cbn [PyMore.getitem] in H.
  destruct (Py.assoc "Account" caller) as [account_id |] eqn:Ea;
    cbn [bind] in H; [| exact (Hfail _ H)].
  destruct (Py.print _) as [printed' | e]; cbn [bind] in H; [| exact (Hfail _ H)].
  cbv zeta in H.
  destruct (Trigger.create_classification_job c _) as [response |] eqn:Ej;
    [| exact (Hfail _ H)].
  inversion H; subst. left. split; [reflexivity |].
  exists bucket_name, file_name, caller, account_id, response.
  repeat split; auto.
Qed.

(** X15. Only the first record of an event counts: two events whose
    [Records] lists start with the same record lead to the same jobs and
    the same status, whatever records follow. *)
Theorem trigger_ignores_later_records (c : Trigger.Cloud) (record : value)
    (more1 more2 : list value) (others : list (string * value)) :
  let event1 := VDict (("Records", VList (record :: more1)) :: others) in
  let event2 := VDict (("Records", VList (record :: more2)) :: others) in
  snd (Trigger.lambda_handler c event1) = snd (Trigger.lambda_handler c event2)
  /\ field "statusCode" (fst (Trigger.lambda_handler c event1))
     = field "statusCode" (fst (Trigger.lambda_handler c event2)).
Proof.
  intros event1 event2. unfold Trigger.lambda_handler.
  change (Trigger.first_record event2) with (Trigger.first_record event1).
  destruct (Trigger.first_record event1) as [[bucket_name file_name] | e];
    [| split; reflexivity].
  destruct (Py.print _); [| split; reflexivity].
  destruct (Trigger.get_caller_identity c) as [caller |]; [| split; reflexivity].
  destruct (bind _ _); [| split; reflexivity].
  cbv zeta. destruct (Trigger.create_classification_job c _); split; reflexivity.
Qed.

End Properties.

(** ** Examples

    The properties at concrete inputs, run with the table of CPython
    3.11. *)

#[local] Existing Instance cpython_3_11.

Lemma classify_table_witness :
  classify (VStr "SSN") = (High, "Immediately protect SSN information")
  /\ classify (VStr "PHONE") = (Medium, "Review and secure PHONE data handling")
  /\ classify (VStr "ssn") = (Low, "Maintain current data protection measures").
Proof.
  split; [| split].
  - apply (proj1 (classify_table "SSN")). simpl. auto.
  - apply (proj1 (proj2 (classify_table "PHONE"))). simpl. auto.
  - apply (proj2 (proj2 (classify_table "ssn")));
      simpl; intros H; repeat destruct H as [H | H]; try discriminate H; exact H.
Defined.

Lemma tier_counts_sum_witness :
  exists cd,
    extract_compliance_details (VList [sample_report]) = Ok cd
    /\ field "High Risk" cd = Some (VInt 2)
    /\ field "Medium Risk" cd = Some (VInt 1)
    /\ field "Low Risk" cd = Some (VInt 0).
Proof.
  destruct (extract_compliance_details (VList [sample_report])) as [cd | e] eqn:E;
    [| vm_compute in E; discriminate E].
  destruct (tier_counts_sum sample_report [] cd E) as (items & h & m & l & _).
  exists cd. split; [reflexivity |].
  vm_compute in E. inversion E. repeat split.
Defined.

Lemma severity_seeding_witness :
  exists cd,
    extract_compliance_details
      (VList [VDict [("severity", VDict [("description", VStr "HiGh")])]]) = Ok cd
    /\ field "Risk Level" cd = Some (VStr "HiGh")
    /\ field "High Risk" cd = Some (VInt 1).
Proof.
  set (report := VDict [("severity", VDict [("description", VStr "HiGh")])]).
  destruct (extract_compliance_details (VList [report])) as [cd | e] eqn:E;
    [| vm_compute in E; discriminate E].
  destruct (severity_seeding report [] cd "HiGh" eq_refl E)
    as (Hlevel & _ & items & cats & Hitems & Hcats & Hhigh & _ & _).
  exists cd. split; [reflexivity |]. split; [exact Hlevel |].
  destruct (Hhigh eq_refl) as (_ & Hh & _).
  vm_compute in Hitems. inversion Hitems; subst items.
  inversion Hcats; subst cats. exact Hh.
Defined.

Lemma metric_formulas_witness :
  exists cd,
    extract_compliance_details (VList [sample_report]) = Ok cd
    /\ field "Data Protection" cd = Some (VInt 100)
    /\ field "Access Control" cd = Some (VInt 80).
Proof.
  destruct (extract_compliance_details (VList [sample_report])) as [cd | e] eqn:E;
    [| vm_compute in E; discriminate E].
  destruct (metric_formulas (VList [sample_report]) cd E)
    as (report & items & h & m & l & sens & dp & ac & sm & pr & en & _).
  exists cd. split; [reflexivity |].
  vm_compute in E. inversion E. split; reflexivity.
Defined.

Lemma sensitivities_in_order_witness :
  exists cd sens,
    extract_compliance_details
      (VList [VDict [("classificationDetails",
                      VDict [("result",
                              VDict [("sensitiveData",
                                      VList [VDict [("category", VStr "EMAIL")];
                                             VDict [("category", VStr "SSN")];
                                             VDict [("category", VStr "OTHER")]])])])]])
    = Ok cd
    /\ field "Sensitivities" cd = Some (VList sens)
    /\ map (field "type") sens
       = [Some (VStr "EMAIL"); Some (VStr "SSN"); Some (VStr "OTHER")].
Proof.
  match goal with |- exists cd sens, extract_compliance_details (VList [?r]) = _ /\ _ =>
    set (report := r) end.
  destruct (extract_compliance_details (VList [report])) as [cd | e] eqn:E;
    [| vm_compute in E; discriminate E].
  destruct (sensitivities_in_order report [] cd E) as (items & sens & _ & Hs & _).
  exists cd, sens. split; [reflexivity |]. split; [exact Hs |].
  vm_compute in E. inversion E; subst cd. vm_compute in Hs. inversion Hs. reflexivity.
Defined.

(** Against C8 as stated: a first element whose [severity] is a string
    instead of an object makes the extractor raise; a field of the wrong
    type is not replaced by its default. *)
Lemma malformed_field_raises :
  extract_compliance_details (VList [VDict [("severity", VStr "High")]])
  = Raise AttributeError
  /\ ~ (forall report rest,
          exists cd, extract_compliance_details (VList (report :: rest)) = Ok cd).
Proof.
  split; [reflexivity |].
  intros H. destruct (H (VDict [("severity", VStr "High")]) []) as [cd Hcd].
  discriminate Hcd.
Qed.

Lemma missing_fields_default_witness :
  (exists cd,
     extract_compliance_details (VList [VDict []]) = Ok cd
     /\ field "Risk Level" cd = Some (VStr "Unknown")
     /\ field "Findings Count" cd = Some (VInt 0)
     /\ field "Sensitivities" cd = Some (VList []))
  /\ (exists cd e,
        extract_compliance_details (VList [bare_item_report]) = Ok cd
        /\ field "Sensitivities" cd = Some (VList [e])
        /\ field "type" e = Some (VStr "Unknown")).
Proof.
  split.
  - destruct (missing_fields_default (VDict []) [] eq_refl)
      as (cd & Hcd & Hsev & _ & Hcount & _ & _ & Hsd & _).
    exists cd. split; [exact Hcd |].
    split; [apply Hsev; left; reflexivity |].
    split; [apply Hcount; reflexivity |].
    apply Hsd. left. reflexivity.
  - destruct (missing_fields_default bare_item_report [] eq_refl)
      as (cd & Hcd & _ & _ & _ & _ & _ & _ & Hitem).
    pose proof Hcd as Hrun. vm_compute in Hrun. inversion Hrun as [Hlit].
    assert (Hsens : field "Sensitivities" cd
                    = Some (VList [entry_of (VStr "Unknown")]))
      by (rewrite <- Hlit; reflexivity).
    destruct (Hitem [VDict []] [entry_of (VStr "Unknown")] 0%nat (VDict [])
                eq_refl Hsens eq_refl eq_refl) as (e & He & Htype).
    exists cd, e. split; [exact Hcd |]. split; [| exact Htype].
    simpl in He. inversion He. exact Hsens.
Defined.

Lemma rendering_layout_witness :
  pipeline (VList [sample_report])
  = Ok [SetFont "Helvetica" 12;
        DrawString 100 750 "Compliance Report";
        DrawString 100 730 "--------------------------------------------------";
        DrawString 100 700 "Risk Level: High";
        DrawString 100 680 "Category: PII";
        DrawString 100 660 "Findings Count: 5";
        DrawString 100 640 "Description: No description available";
        DrawString 100 620 "Last Updated: Unknown";
        DrawString 100 600 "High Risk: 2";
        DrawString 100 580 "Medium Risk: 1";
        DrawString 100 560 "Low Risk: 0";
        DrawString 100 540 "Sensitivities:";
        DrawString 120 520
          "- {'type': 'SSN', 'visibility': 'Partially Visible', 'risk': 'High', 'action': 'Immediately protect SSN information'}";
        DrawString 120 500
          "- {'type': 'EMAIL', 'visibility': 'Partially Visible', 'risk': 'Medium', 'action': 'Review and secure EMAIL data handling'}";
        DrawString 100 480 "Data Protection: 100";
        DrawString 100 460 "Access Control: 80";
        DrawString 100 440 "Security Monitoring: 70";
        DrawString 100 420 "Privacy: 85";
        DrawString 100 400 "Encryption: 95";
        Save].
Proof.
  unfold pipeline.
  destruct (extract_compliance_details (VList [sample_report])) as [cd | e] eqn:E;
    [| vm_compute in E; discriminate E].
  destruct (rendering_layout (VList [sample_report]) cd E)
    as (rl & c & n & d & u & h & m & l & sens & dp & ac & sm & pr & en & Hcd & Hpdf & _).
  cbn [bind]. rewrite Hpdf.
  vm_compute in E. inversion E as [E']. rewrite Hcd in E'.
  inversion E'. vm_compute. reflexivity.
Defined.

Lemma rendering_no_overflow_handling_witness :
  exists cd canvas,
    extract_compliance_details (crowded_record 23) = Ok cd
    /\ generate_pdf cd = Ok (canvas ++ [Save])%list
    /\ length canvas = 40%nat
    /\ last canvas Save = DrawString 100 (-20) "Encryption: 100".
Proof.
  destruct (extract_compliance_details (crowded_record 23)) as [cd | e] eqn:E;
    [| vm_compute in E; discriminate E].
  destruct (rendering_no_overflow_handling (crowded_record 23) cd E)
    as (sens & canvas & Hsens & Hrender & Hpdf & Hlen & _ & _ & _ & _).
  exists cd, canvas. split; [reflexivity |]. split; [exact Hpdf |].
  vm_compute in E. inversion E; subst cd.
  vm_compute in Hsens. inversion Hsens; subst sens.
  vm_compute in Hrender. inversion Hrender; subst canvas.
  split; reflexivity.
Defined.

Lemma lookup_errors_of_extraction_witness :
  extract_compliance_details (VList []) = Raise IndexError
  /\ extract_compliance_details (VStr EmptyString) = Raise IndexError
  /\ extract_compliance_details (VDict [("severity", VNone)]) = Raise KeyError.
Proof.
  split; [| split].
  - apply (proj1 (lookup_errors_of_extraction (VList []))). left. reflexivity.
  - apply (proj1 (lookup_errors_of_extraction (VStr EmptyString))). right. reflexivity.
  - apply (proj2 (lookup_errors_of_extraction (VDict [("severity", VNone)]))). reflexivity.
Defined.


Lemma pipeline_fails_as_extraction_witness :
  pipeline (VList [VDict [("severity", VStr "High")]]) = Raise AttributeError
  /\ exists ops, pipeline (VList [sample_report]) = Ok ops.
Proof.
  split.
  - apply (proj1 (pipeline_fails_as_extraction _)). reflexivity.
  - apply (proj2 (pipeline_fails_as_extraction _)). eexists. reflexivity.
Defined.

Lemma classify_converse_witness :
  classify (VInt 7) = (Low, "Maintain current data protection measures")
  /\ classify VNone = (Low, "Maintain current data protection measures").
Proof.
  split.
  - apply (proj2 (proj2 (classify_converse (VInt 7)))). reflexivity.
  - apply (proj2 (proj2 (classify_converse VNone))). reflexivity.
Defined.

Lemma counts_agree_with_entries_witness :
  exists cd sens,
    extract_compliance_details (VList [sample_report]) = Ok cd
    /\ field "Sensitivities" cd = Some (VList sens)
    /\ entries_at High sens = 1 /\ entries_at Medium sens = 1.
Proof.
  destruct (extract_compliance_details (VList [sample_report])) as [cd | e] eqn:E;
    [| vm_compute in E; discriminate E].
  destruct (counts_agree_with_entries (VList [sample_report]) cd E)
    as (sens & h & m & l & Hs & _).
  exists cd, sens. split; [reflexivity |]. split; [exact Hs |].
  vm_compute in E. inversion E; subst cd. vm_compute in Hs. inversion Hs; subst sens.
  split; reflexivity.
Defined.

Lemma metric_floors_and_saturation_witness :
  exists cd,
    extract_compliance_details (crowded_record 3) = Ok cd
    /\ field "Privacy" cd = Some (VInt 100)
    /\ field "Encryption" cd = Some (VInt 100).
Proof.
  destruct (extract_compliance_details (crowded_record 3)) as [cd | e] eqn:E;
    [| vm_compute in E; discriminate E].
  destruct (metric_floors_and_saturation (crowded_record 3) cd E)
    as (h & m & l & sens & dp & ac & sm & pr & en & _).
  exists cd. split; [reflexivity |].
  vm_compute in E. inversion E. split; reflexivity.
Defined.

Lemma rendering_succeeds_iff_witness :
  generate_pdf (VDict [("Sensitivities", VNone)]) = Raise TypeError
  /\ generate_pdf (VList []) = Raise AttributeError
  /\ exists ops, generate_pdf (VDict [("Sensitivities", VDict [("a", VNone)])]) = Ok ops.
Proof.
  split; [| split].
  - apply (proj2 (proj2 (rendering_succeeds_iff _))). eexists. split; reflexivity.
  - apply (proj1 (proj2 (rendering_succeeds_iff _))). reflexivity.
  - apply (proj1 (rendering_succeeds_iff _)). eexists. split; reflexivity.
Defined.

Lemma rendering_rows_witness :
  exists rows,
    generate_pdf (VDict [("a", VInt 1); ("Sensitivities", VStr "xy")])
    = Ok (preamble ++ rows ++ [Save])%list
    /\ length rows = 4%nat.
Proof.
  set (d := VDict [("a", VInt 1); ("Sensitivities", VStr "xy")]).
  destruct (generate_pdf d) as [ops | e] eqn:E; [| vm_compute in E; discriminate E].
  destruct (rendering_rows d ops E) as (rows & Hops & _).
  exists rows. split; [f_equal; exact Hops |].
  vm_compute in E. inversion E as [E']. rewrite Hops in E'.
  cbn [preamble app] in E'. inversion E' as [Hrows].
  destruct rows as [| r1 [| r2 [| r3 [| r4 [| r5 rows]]]]];
    try discriminate Hrows; try reflexivity.
  cbn [app] in Hrows. inversion Hrows. destruct rows; discriminate.
Defined.

Lemma upload_stores_csv_only_witness :
  snd (Web.upload_file calm_world [("file", Web.mkFile "Data.CSV" "a,b")])
  = [Web.mkUpload (Web.FileBody "a,b") "hackathonwin" "Data.CSV"].
Proof.
  destruct (Web.upload_file calm_world [("file", Web.mkFile "Data.CSV" "a,b")])
    as [r ups] eqn:E.
  destruct (upload_stores_csv_only _ _ _ _ E) as [[Hnone | Hsome] _].
  - subst ups. vm_compute in E. discriminate E.
  - destruct Hsome as (field & file & root & ext & Hf & Hups & _).
    vm_compute in Hf. inversion Hf; subst field file. exact Hups.
Defined.

Lemma upload_accepts_plain_csv_witness :
  Web.upload_file calm_world [("note", Web.mkFile "n.txt" "x");
                              ("file", Web.mkFile "report.Csv" "a,b")]
  = (Web.Redirect "buffer",
     [Web.mkUpload (Web.FileBody "a,b") "hackathonwin" "report.Csv"]).
Proof.
  apply (upload_accepts_plain_csv calm_world _ "file" (Web.mkFile "report.Csv" "a,b")
           "report" ".Csv" "buffer");
    first [reflexivity | discriminate].
Defined.

Lemma result_uploads_witness :
  exists canvas,
    snd (Web.result calm_world) = [Web.mkUpload (Web.PdfBody canvas) "hackathonwin" "new.pdf"].
Proof.
  destruct (Web.result calm_world) as [r ups] eqn:E.
  destruct (result_uploads calm_world r ups E) as [Hnone | Hsome].
  - subst ups. vm_compute in E. discriminate E.
  - destruct Hsome as (response & contents & first & key & body & json_data & cd & name
                       & canvas & H1 & H2 & H3 & H4 & _ & _ & _ & _ & Hname & _ & Hups).
    exists canvas. cbn [snd]. rewrite Hups.
    vm_compute in H1. inversion H1; subst response.
    vm_compute in H2. inversion H2; subst contents.
    vm_compute in H3. inversion H3; subst first.
    vm_compute in H4. inversion H4; subst key.
    vm_compute in Hname. inversion Hname. reflexivity.
Defined.


Lemma pdf_name_of_json_key_witness :
  Web.pdf_name (VStr "macie-findings/new.json") = Ok "new.pdf".
Proof.
  exact (proj1 (pdf_name_of_json_key "macie-findings" "new" eq_refl eq_refl)).
Defined.

Lemma trigger_outcome_witness :
  exists resp job,
    Trigger.lambda_handler calm_cloud (sample_event []) = (resp, [job])
    /\ field "statusCode" resp = Some (VInt 200)
    /\ field "name" job = Some (VStr "MacieScanJob_1700000000").
Proof.
  destruct (Trigger.lambda_handler calm_cloud (sample_event [])) as [resp jobs] eqn:E.
  destruct (trigger_outcome calm_cloud _ resp jobs E)
    as [(Hcode & b & f & caller & acc & response & _ & _ & _ & Hjobs & _)
       | (Hcode & _ & _)].
  - clear Hjobs. vm_compute in E. inversion E as [[Hresp Hj]]. clear E. subst jobs resp.
    do 2 eexists.
    split; [reflexivity | split; [exact Hcode | reflexivity]].
  - vm_compute in E. inversion E; subst resp. discriminate Hcode.
Defined.

(** A category with the no-break space U+00A0, which is not printable:
    the line of its entry shows it escaped, as [repr] does. *)
Lemma escaped_category_line :
  exists ops,
    pipeline
      (VList [VDict [("classificationDetails",
                      VDict [("result",
                              VDict [("sensitiveData",
                                      VList [VDict [("category",
                                                     VStr (String "A"
                                                             (String (ascii_of_nat 194)
                                                                (String (ascii_of_nat 160)
                                                                   "B"))))]])])])]])
    = Ok ops
    /\ nth_error ops 12
       = Some (DrawString 120 520
                 "- {'type': 'A\xa0B', 'visibility': 'Partially Visible', 'risk': 'Low', 'action': 'Maintain current data protection measures'}").
Proof.
  eexists. split; [vm_compute; reflexivity | reflexivity].
Qed.

(** A severity description with the lone surrogate U+D800: the [print] of
    line 117 cannot encode it and extraction raises. *)
Lemma surrogate_severity_raises :
  extract_compliance_details
    (VList [VDict [("severity",
                    VDict [("description",
                            VStr (String (ascii_of_nat 237)
                                    (String (ascii_of_nat 160)
                                       (String (ascii_of_nat 128) EmptyString))))])]])
  = Raise UnicodeEncodeError.
Proof.
  reflexivity.
Qed.
